(** * Memex backup: change classification and the simple HTTP backend

    A shallow embedding of
      - [src/backup/background/backend/utils.ts]
        ([separateDataFromImageChanges], [shouldWriteImages],
        [_prepareBackupChangeForStorage]) and
      - the class [SimpleHttpBackend] at the end of
        [src/custom-lists/background/storage.ts] ([storeObject],
        [_writeToPath], [deleteObject], [backupChanges], [listObjects]).

    The TypeScript code is asynchronous and mutates the change records it is
    handed.  It is modelled in a small state-and-exception monad over a
    [World] that holds the JavaScript heap of payload objects, the errors
    handed to Raven, the wall clock and the log of requests given to [fetch].
    One invocation runs alone: every [await] is a sequencing point. *)

From Stdlib Require Import ZArith NArith Ascii String.
From stdpp Require Import base tactics option list strings gmap pretty.

Open Scope string_scope.
Open Scope list_scope.
Open Scope Z_scope.

(** ** JavaScript values *)

(** The primitive values a payload field or a primary key can hold.  A blob
    is kept as its bytes. *)
Inductive JsValue : Type :=
  | JUndefined
  | JNull
  | JBool (b : bool)
  | JNum (n : Z)
  | JStr (s : string)
  | JBlob (bytes : string).

#[global] Instance JsValue_eq_dec : EqDecision JsValue.
Proof. solve_decision. Defined.

(** [v != null]: the loose comparison is false for [null] and for
    [undefined], true for every other value. *)
Definition not_nullish (v : JsValue) : bool :=
  match v with
  | JUndefined | JNull => false
  | _ => true
  end.

(** A thrown value; [new Error(msg)] carries its message. *)
Inductive JsError : Type :=
  | Error (message : string).

#[global] Instance JsError_eq_dec : EqDecision JsError.
Proof. solve_decision. Defined.

(** ** The heap of payload objects *)

(** A payload is a plain object used as a record of fields. *)
Abbreviation Payload := (gmap string JsValue).
Abbreviation loc := positive.
Abbreviation Heap := (gmap loc Payload).

(** [o.f]: a field that was never set reads as [undefined]. *)
Definition field (o : Payload) (f : string) : JsValue :=
  default JUndefined (o !! f).

(** ** Data model ([backend/types], of which only the uses are in the
    sources) *)

(** Modelled from the spec: the [ObjectChange] declaration of
    [src/backup/background/backend/types] is missing; the spec gives a change
    record a collection, a primary key, a payload that may be null and a
    change type.  The payload is a reference: two records may share one. *)
Inductive ChangeType : Type := Create | Update | Delete.

Record ObjectChange : Type := mkChange {
  collection : string;
  objectPk : JsValue;
  object : option loc;
  changeType : ChangeType;
}.

(** The object literal pushed on [images] in [separateDataFromImageChanges]. *)
Record ExtractedImage : Type := mkImage {
  img_collection : string;
  img_pk : JsValue;
  img_type : string;
  img_data : JsValue;
}.

#[global] Instance ChangeType_eq_dec : EqDecision ChangeType.
Proof. solve_decision. Defined.
#[global] Instance ObjectChange_eq_dec : EqDecision ObjectChange.
Proof. solve_decision. Defined.
#[global] Instance ExtractedImage_eq_dec : EqDecision ExtractedImage.
Proof. solve_decision. Defined.

(** Modelled from the spec: the [BackupObject] declaration is missing; the
    code reads [collection], [pk] and [object] of it. *)
Record BackupObject : Type := mkBackupObject {
  bo_collection : string;
  bo_pk : string;
  bo_object : JsValue;
}.

(** The argument of [deleteObject], of which the code reads nothing. *)
Record BackupObjectLocation : Type := mkBackupObjectLocation {
  bol_collection : string;
  bol_pk : string;
}.

(** ** Transport *)

Inductive Method : Type := GET | PUT.

(** The arguments of one [fetch] call. *)
Record Request : Type := mkRequest {
  req_method : Method;
  req_url : string;
  req_body : option string;
}.

#[global] Instance Method_eq_dec : EqDecision Method.
Proof. solve_decision. Defined.
#[global] Instance Request_eq_dec : EqDecision Request.
Proof. solve_decision. Defined.

(** What the code reads of a [Response]: [status] and [text()]. *)
Record Response : Type := mkResponse {
  status : Z;
  text : string;
}.

(** [response.ok] holds for the statuses 200 to 299. *)
Definition ok (r : Response) : bool :=
  (200 <=? status r) && (status r <=? 299).

(** [fetch] resolves with the server's response whatever its status, and
    rejects only when no response is obtained. *)
Inductive FetchOutcome : Type :=
  | Resolved (r : Response)
  | Rejected (e : JsError).

(** The value handed to [stringify] in [backupChanges]: the changes array is
    serialised as it stands in the heap at that moment. *)
Inductive BatchDocument : Type :=
  | ChangeSetDocument (version : Z) (changes : list ObjectChange) (h : Heap)
  | ImagesDocument (version : Z) (images : list ExtractedImage).

(** ** What the code imports from outside these files *)

Class Platform : Type := {
  (** [src/util/encode-blob]: the encoded form, or the value it throws. *)
  encodeBlob : JsValue → JsValue + JsError;
  (** the remote end of [fetch], given the requests made so far *)
  remote : list Request → Request → FetchOutcome;
  (** the JSON text that [JSON.stringify(v)] gives for a value other than
      [undefined] (for [undefined] see [JSON_stringify_result]) *)
  JSON_stringify : JsValue → string;
  (** [JSON.stringify(obj, null, 4)] *)
  JSON_stringify_indent4 : BatchDocument → string;
}.

(** ** The state and the monad *)

Record World : Type := mkWorld {
  heap : Heap;
  captured : list JsError;     (* Raven.captureException *)
  clock : Z;                   (* Date.now() *)
  sent : list Request;         (* calls of fetch, oldest first *)
}.

(** A computation returns, throws, or dereferences a location that holds no
    object; the last cannot happen in a JavaScript heap and is kept apart. *)
Inductive Outcome (A : Type) : Type :=
  | Returned (a : A) (w : World)
  | Thrown (e : JsError) (w : World)
  | Dangling.
Arguments Returned {A} a w.
Arguments Thrown {A} e w.
Arguments Dangling {A}.

Definition Async (A : Type) : Type := World → Outcome A.

#[global] Instance Async_ret : MRet Async := λ A a w, Returned a w.
#[global] Instance Async_bind : MBind Async := λ A B k m w,
  match m w with
  | Returned a w' => k a w'
  | Thrown e w' => Thrown e w'
  | Dangling => Dangling
  end.

Definition throw {A : Type} (e : JsError) : Async A := λ w, Thrown e w.

Definition set_heap (h : Heap) (w : World) : World :=
  mkWorld h (captured w) (clock w) (sent w).

(** [o.f] through a reference *)
Definition get_field (l : loc) (f : string) : Async JsValue := λ w,
  match heap w !! l with
  | Some o => Returned (field o f) w
  | None => Dangling
  end.

(** [o.f = v] through a reference *)
Definition set_field (l : loc) (f : string) (v : JsValue) : Async unit := λ w,
  match heap w !! l with
  | Some o => Returned tt (set_heap (<[l := <[f := v]> o]> (heap w)) w)
  | None => Dangling
  end.

(** [Raven.captureException(e)] *)
Definition captureException (e : JsError) : Async unit := λ w,
  Returned tt (mkWorld (heap w) (captured w ++ [e]) (clock w) (sent w)).

(** [Date.now()] *)
Definition Date_now : Async Z := λ w, Returned (clock w) w.

(** ** [backend/utils.ts] *)

Section utils.
Context `{Platform}.

(** [_prepareBackupChangeForStorage], lines 34-45: the "pages" block.  The
    result is the [images] object as its list of entries. *)
Definition prepare_screenshot (change : ObjectChange)
    : Async (list (string * JsValue)) :=
  if String.eqb (collection change) "pages" then
    match object change with
    | Some o =>
        screenshot ← get_field o "screenshot";
        if not_nullish screenshot then
          images ← match encodeBlob screenshot with
                   | inl encoded => mret [("screenshot", encoded)]
                   | inr e => captureException e;; mret []
                   end;
          set_field o "screenshot" JUndefined;;
          mret images
        else mret []
    | None => mret []
    end
  else mret [].

(** lines 47-57: the "favIcons" block *)
Definition prepare_favIcon (change : ObjectChange) : Async unit :=
  if String.eqb (collection change) "favIcons" then
    match object change with
    | Some o =>
        favIcon ← get_field o "favIcon";
        if not_nullish favIcon then
          match encodeBlob favIcon with
          | inl encoded => set_field o "favIcon" encoded
          | inr e => captureException e
          end
        else mret tt
    | None => mret tt
    end
  else mret tt.

Definition _prepareBackupChangeForStorage (change : ObjectChange)
    : Async (list (string * JsValue)) :=
  images ← prepare_screenshot change;
  prepare_favIcon change;;
  mret images.

(** The inner loop over [Object.entries(changeImages)]. *)
Definition images_of_entries (change : ObjectChange)
    (changeImages : list (string * JsValue)) : list ExtractedImage :=
  map (λ entry, mkImage (collection change) (objectPk change)
                        (fst entry) (snd entry)) changeImages.

(** The outer loop, with [images] as accumulator. *)
Fixpoint separate_loop (changes : list ObjectChange)
    (images : list ExtractedImage) : Async (list ExtractedImage) :=
  match changes with
  | [] => mret images
  | change :: rest =>
      changeImages ← _prepareBackupChangeForStorage change;
      separate_loop rest (images ++ images_of_entries change changeImages)
  end.

(** Returns [{ changes, images }]: the array it was given and the images. *)
Definition separateDataFromImageChanges (changes : list ObjectChange)
    : Async (list ObjectChange * list ExtractedImage) :=
  images ← separate_loop changes [];
  mret (changes, images).

(** [storeBlobs && !!images.length] *)
Definition shouldWriteImages (images : list ExtractedImage)
    (storeBlobs : bool) : bool :=
  storeBlobs && negb (length images =? 0)%nat.
End utils.

(** ** Platform functions the backend calls *)

(** [encodeURIComponent] on the UTF-8 bytes of a string: letters, digits and
    [- _ . ! ~ * ' ( )] stay, every other byte becomes [%XX] in upper-case
    hexadecimal.  (A JavaScript string with a lone surrogate, on which the
    function throws, has no UTF-8 form and is not a [string] here.) *)
Definition uri_unreserved (c : ascii) : bool :=
  let n := N_of_ascii c in
  ((65 <=? n) && (n <=? 90) || (97 <=? n) && (n <=? 122)
   || (48 <=? n) && (n <=? 57)
   || bool_decide (c ∈ list_ascii_of_string "-_.!~*'()"))%N.

Definition hex_digit (n : N) : ascii :=
  default "0"%char (list_ascii_of_string "0123456789ABCDEF" !! N.to_nat n).

Definition percent_encode (c : ascii) : string :=
  let n := N_of_ascii c in
  String "%" (String (hex_digit (n / 16)) (String (hex_digit (n mod 16)) "")).

Fixpoint encodeURIComponent (s : string) : string :=
  match s with
  | EmptyString => EmptyString
  | String c rest =>
      (if uri_unreserved c then String c "" else percent_encode c)
        +:+ encodeURIComponent rest
  end.

(** ** The listing parser (inside [listObjects], lines 457-463) *)

(** The bytes the parser looks for (newline, quote, the letters of [href=])
    are ASCII, and no byte of a longer UTF-8 sequence is ASCII, so cutting
    and matching on bytes agrees with cutting and matching on the code units
    of the JavaScript string. *)

Definition dquote : ascii := ascii_of_nat 34.
Definition newline : ascii := ascii_of_nat 10.

(** [body.split('\n')]; the empty body is one empty line. *)
Fixpoint split_lines (body : string) : list string :=
  match body with
  | EmptyString => [EmptyString]
  | String c rest =>
      if Ascii.eqb c newline then EmptyString :: split_lines rest
      else match split_lines rest with
           | line :: lines => String c line :: lines
           | [] => [String c EmptyString]
           end
  end.

(** The text before the first double quote, and the text from it on. *)
Fixpoint span_unquoted (s : string) : string * string :=
  match s with
  | EmptyString => (EmptyString, EmptyString)
  | String c rest =>
      if Ascii.eqb c dquote then (EmptyString, s)
      else let (v, tail) := span_unquoted rest in (String c v, tail)
  end.

Fixpoint strip_prefix (p s : string) : option string :=
  match p, s with
  | EmptyString, _ => Some s
  | String a p', String b s' =>
      if Ascii.eqb a b then strip_prefix p' s' else None
  | String _ _, EmptyString => None
  end.

Definition href_open : string := "href=" +:+ String dquote "".

(** The pattern [href=QUOTE([^QUOTE]+)QUOTE] matched at the start of [s]:
    the group is greedy and cannot hold a quote, so it is the whole run up
    to the next quote, which must be there and must not come at once. *)
Definition match_href_here (s : string) : option string :=
  match strip_prefix href_open s with
  | Some after =>
      match span_unquoted after with
      | (String c v, String _ _) => Some (String c v)
      | _ => None
      end
  | None => None
  end.

(** [regexp.exec(line)] for a fresh regular expression (the literal is
    evaluated on each call of the arrow function, so [lastIndex] is 0):
    the leftmost match, as the text of its group, or [None] for [null]. *)
Fixpoint exec_href (line : string) : option string :=
  match match_href_here line with
  | Some v => Some v
  | None =>
      match line with
      | EmptyString => None
      | String _ rest => exec_href rest
      end
  end.

(** [lines.map(exec)], then [.filter(match => !!match).map(match => match[1])] *)
Definition parse_listing (body : string) : list string :=
  let lines := split_lines body in
  let matches := map exec_href lines in
  omap id matches.

(** ** [SimpleHttpBackend] *)

(** The world once [req] has been handed to [fetch]. *)
Definition logged (req : Request) (w : World) : World :=
  mkWorld (heap w) (captured w) (clock w) (sent w ++ [req]).

Record SimpleHttpBackend : Type := mkBackend { url : string }.

Section backend.
Context `{Platform}.

(** [fetch(url, init)]: the call is logged, then resolves or rejects. *)
Definition fetch (req : Request) : Async Response := λ w,
  match remote (sent w) req with
  | Resolved r => Returned r (logged req w)
  | Rejected e => Thrown e (logged req w)
  end.

(** [_writeToPath(url, body)].  The parameter is declared a string, but it
    holds whatever the caller computed: [None] is [undefined], with which
    [fetch] sends a request without body. *)
Definition _writeToPath (this : SimpleHttpBackend) (path : string)
    (body : option string) : Async unit :=
  fetch (mkRequest PUT (url this +:+ "/" +:+ path) body);;
  mret tt.

(** [JSON.stringify(v)] as the call returns it: [undefined] for [undefined],
    and a JSON text for every other value of [JsValue] (null, a boolean, a
    number and a string have their JSON form, a blob that of an object). *)
Definition JSON_stringify_result (v : JsValue) : option string :=
  match v with
  | JUndefined => None
  | _ => Some (JSON_stringify v)
  end.

Definition storeObject (this : SimpleHttpBackend) (backupObject : BackupObject)
    : Async unit :=
  _writeToPath this
    (bo_collection backupObject +:+ "/" +:+
       encodeURIComponent (encodeURIComponent (bo_pk backupObject)))
    (JSON_stringify_result (bo_object backupObject)).

Definition deleteObject (this : SimpleHttpBackend)
    (backupObject : BackupObjectLocation) : Async unit :=
  throw (Error "Not yet implemented  :(").

Definition backupChanges (this : SimpleHttpBackend)
    (unprocessedChanges : list ObjectChange) (currentSchemaVersion : Z)
    (storeBlobs : bool) : Async unit :=
  separated ← separateDataFromImageChanges unprocessedChanges;
  let changes := fst separated in
  let images := snd separated in
  timestamp ← Date_now;
  changes_body ← (λ w, Returned (JSON_stringify_indent4
      (ChangeSetDocument currentSchemaVersion changes (heap w))) w);
  _writeToPath this ("change-sets/" +:+ pretty timestamp) (Some changes_body);;
  if shouldWriteImages images storeBlobs then
    _writeToPath this ("images/" +:+ pretty timestamp)
      (Some (JSON_stringify_indent4
               (ImagesDocument currentSchemaVersion images)))
  else mret tt.

Definition listObjects (this : SimpleHttpBackend) (collection : string)
    : Async (list string) :=
  response ← fetch (mkRequest GET (url this +:+ "/" +:+ collection) None);
  if status response =? 404 then mret []
  else if negb (ok response) then throw (Error (text response))
  else mret (parse_listing (text response)).
End backend.

(** ** [SimpleHttpBackend.retrieveObject] *)

Section retrieve.
Context `{Platform}.
(** [response.json()]: the body parsed as JSON, or the error it rejects
    with.  What a JSON document is stays open. *)
Variable Json : Type.
Variable response_json : string → Json + JsError.

(** [(await fetch(url/collection/object)).json()]: the status is not read. *)
Definition retrieveObject (this : SimpleHttpBackend)
    (collection object : string) : Async Json :=
  response ← fetch (mkRequest GET
                      (url this +:+ "/" +:+ collection +:+ "/" +:+ object) None);
  match response_json (text response) with
  | inl parsed => mret parsed
  | inr e => throw e
  end.
End retrieve.

(** ** [CustomListStorage.changeListsBeforeSending]
    ([src/custom-lists/background/storage.ts], lines 54-69) *)

Module CustomListStorage.

(** A field of a list as it is sent: a primitive, or the [pages] array. *)
Inductive ListField : Type :=
  | Scalar (v : JsValue)
  | UrlArray (urls : list JsValue).

#[global] Instance ListField_eq_dec : EqDecision ListField.
Proof. solve_decision. Defined.

(** Modelled from the spec: [PageList] and [PageListEntry] are declared in
    [./types], which is missing; the collections registered in the
    constructor give their fields.  Both are plain objects. *)
Abbreviation PageList := (gmap string ListField).
Abbreviation PageListEntry := (gmap string JsValue).

(** [listId === list.id] for the primitive ids the collections hold: equal
    values of one type.  A missing [id] reads as [undefined]; an array or a
    blob is an object and equals no value read from another record. *)
Definition id_matches (listId : JsValue) (id : option ListField) : bool :=
  match listId, id with
  | JBlob _, _ => false
  | _, None => bool_decide (listId = JUndefined)
  | _, Some (Scalar v) => bool_decide (listId = v)
  | _, Some (UrlArray _) => false
  end.

(** The arrow function given to [lists.map]: the list after
    [delete list['_name_terms']] and the object returned for it. *)
Definition prepared (pageEntries : list PageListEntry) (list : PageList)
    : PageList * PageList :=
  let page := find (λ entry, id_matches (field entry "listId") (list !! "id"))
                   pageEntries in
  let list' := delete "_name_terms" list in
  (list',
   <["active" := Scalar (JBool (bool_decide (is_Some page)))]>
     (<["pages" := UrlArray []]> list')).

(** The lists handed in, as the call leaves them, and [mappedLists]. *)
Definition changeListsBeforeSending (lists : list PageList)
    (pageEntries : list PageListEntry) : list PageList * list PageList :=
  (map (λ list, fst (prepared pageEntries list)) lists,
   map (λ list, snd (prepared pageEntries list)) lists).

End CustomListStorage.

(** ** The tooltips reducer ([src/overview/tooltips/reducer.ts]) *)

Module Tooltips.

(** The state: the two declared fields, and the [tooltip] field that the
    handler of [setTooltip] adds. *)
Record State : Type := mkState {
  showTooltip : bool;
  whichTooltip : string;
  tooltip : option JsValue;
}.

Definition defState : State := mkState false "" None.

(** Modelled from the spec: the action creators of [./actions] are missing;
    the reducer has a handler for three of them.  [otherAction] is any action
    without handler, on which a redux-act reducer returns its state. *)
Inductive Action : Type :=
  | setTooltip (payload : JsValue)
  | toggleShowTooltip
  | setShowTooltip (payload : bool)
  | otherAction.

Definition reducer (state : State) (action : Action) : State :=
  match action with
  | setTooltip payload =>
      mkState (showTooltip state) (whichTooltip state) (Some payload)
  | toggleShowTooltip =>
      mkState (negb (showTooltip state)) (whichTooltip state) (tooltip state)
  | setShowTooltip payload =>
      mkState payload (whichTooltip state) (tooltip state)
  | otherAction => state
  end.

#[global] Instance Action_eq_dec : EqDecision Action.
Proof. solve_decision. Defined.

(** The store's state after a run of dispatched actions. *)
Definition dispatch_all (state : State) (actions : list Action) : State :=
  fold_left reducer actions state.

End Tooltips.

(** ** Sample platforms and inputs *)

Definition sample_encode (v : JsValue) : JsValue + JsError :=
  match v with
  | JBlob bytes => inl (JStr ("data:image/png;base64," +:+ bytes))
  | _ => inr (Error "not a blob")
  end.

Definition listing_line (key : string) : string :=
  "<a href=" +:+ String dquote key +:+ String dquote ">" +:+ key +:+ "</a>".

Definition sample_stringify (v : JsValue) : string :=
  match v with
  | JStr t => String dquote t +:+ String dquote ""
  | JNum n => pretty n
  | JBool true => "true"
  | JBool false => "false"
  | JNull => "null"
  | JUndefined | JBlob _ => "{}"
  end.

Definition sample_stringify_indent4 (d : BatchDocument) : string :=
  match d with
  | ChangeSetDocument version changes _ =>
      "version " +:+ pretty version +:+ ", "
        +:+ pretty (length changes) +:+ " changes"
  | ImagesDocument version images =>
      "version " +:+ pretty version +:+ ", "
        +:+ pretty (length images) +:+ " images"
  end.

(** A platform around a given remote end. *)
Definition sample_platform (server : list Request → Request → FetchOutcome)
    : Platform :=
  {| encodeBlob := sample_encode;
     remote := server;
     JSON_stringify := sample_stringify;
     JSON_stringify_indent4 := sample_stringify_indent4 |}.

Definition server_created : list Request → Request → FetchOutcome :=
  λ _ _, Resolved (mkResponse 201 "").
Definition server_unreachable : list Request → Request → FetchOutcome :=
  λ _ _, Rejected (Error "Failed to fetch").
Definition server_error : list Request → Request → FetchOutcome :=
  λ _ _, Resolved (mkResponse 500 "Internal Server Error").
Definition server_missing : list Request → Request → FetchOutcome :=
  λ _ _, Resolved (mkResponse 404 "Not Found").
Definition server_listing : list Request → Request → FetchOutcome :=
  λ _ _, Resolved (mkResponse 200
    (listing_line "1234" +:+ String newline (listing_line "1234"))).
(** Refuses the first request it sees with status 500, accepts the rest. *)
Definition server_fails_first : list Request → Request → FetchOutcome :=
  λ earlier _,
    match earlier with
    | [] => Resolved (mkResponse 500 "Internal Server Error")
    | _ => Resolved (mkResponse 201 "")
    end.

Definition page_payload : Payload :=
  <["screenshot" := JBlob "iVBORw0KGgo="]> {["url" := JStr "example.com/a"]}.
Definition broken_page_payload : Payload :=
  <["screenshot" := JStr "not bytes"]> {["url" := JStr "example.com/b"]}.
Definition favIcon_payload : Payload :=
  <["favIcon" := JBlob "AAABAAEAEBA="]> {["hostname" := JStr "example.com"]}.

Definition sample_world : World :=
  mkWorld (<[1%positive := page_payload]>
            (<[2%positive := favIcon_payload]>
              {[3%positive := broken_page_payload]}))
          [] 1541203200123 [].

Definition page_change : ObjectChange :=
  mkChange "pages" (JStr "example.com/a") (Some 1%positive) Create.
Definition favIcon_change : ObjectChange :=
  mkChange "favIcons" (JStr "example.com") (Some 2%positive) Create.
Definition broken_page_change : ObjectChange :=
  mkChange "pages" (JStr "example.com/b") (Some 3%positive) Update.
Definition deleted_page_change : ObjectChange :=
  mkChange "pages" (JStr "example.com/gone") None Delete.

Definition sample_backend : SimpleHttpBackend := mkBackend "http://localhost:11923".

(** An encoder that also accepts what it has produced. *)
Definition wrapping_encode (v : JsValue) : JsValue + JsError :=
  match v with
  | JBlob bytes => inl (JBlob ("base64(" +:+ bytes +:+ ")"))
  | _ => inr (Error "not a blob")
  end.

Definition wrapping_platform : Platform :=
  {| encodeBlob := wrapping_encode;
     remote := server_created;
     JSON_stringify := sample_stringify;
     JSON_stringify_indent4 := sample_stringify_indent4 |}.

Definition plain_world : World :=
  mkWorld {[4%positive := {["url" := JStr "example.com/c"]}]} [] 1541203200123 [].
Definition plain_page_change : ObjectChange :=
  mkChange "pages" (JStr "example.com/c") (Some 4%positive) Update.

Definition plain_object : BackupObject :=
  mkBackupObject "pages" "example.com" (JStr "page").

Definition reading_list : CustomListStorage.PageList :=
  <["id" := CustomListStorage.Scalar (JNum 1541203200123)]>
    (<["name" := CustomListStorage.Scalar (JStr "reading")]>
       {["_name_terms" := CustomListStorage.Scalar (JStr "reading")]}).
Definition reading_entry : CustomListStorage.PageListEntry :=
  <["listId" := JNum 1541203200123]> {["pageUrl" := JStr "example.com/a"]}.

Definition bookmark_change : ObjectChange :=
  mkChange "bookmarks" (JStr "example.com/a") (Some 1%positive) Create.
Definition visit_change : ObjectChange :=
  mkChange "visits" (JNum 1541203200000) None Create.

(** What a computation leaves behind, when it ends. *)
Definition final_world {A : Type} (out : Outcome A) : option World :=
  match out with
  | Returned _ w | Thrown _ w => Some w
  | Dangling => None
  end.

(** The value a computation returns, when it returns. *)
Definition returned_value {A : Type} (out : Outcome A) : option A :=
  match out with
  | Returned a _ => Some a
  | _ => None
  end.

(** The requests a computation has handed to [fetch] when it ends. *)
Definition requests {A : Type} (out : Outcome A) : list Request :=
  from_option sent [] (final_world out).

(** ** Predicates of the statements *)

(** The payload reference of a record designates an object of the heap. *)
Definition allocated (h : Heap) (change : ObjectChange) : Prop :=
  match object change with
  | Some o => is_Some (h !! o)
  | None => True
  end.

(** [o'] is [o] up to its two binary fields, and its screenshot is the one
    of [o] or has been cleared. *)
Definition binary_fields_only (o o' : Payload) : Prop :=
  (∀ f, f ≠ "screenshot" → f ≠ "favIcon" → o' !! f = o !! f) ∧
  (field o' "screenshot" = field o "screenshot"
   ∨ field o' "screenshot" = JUndefined).

(** [w'] comes from [w] by classification: same objects, touched in their
    binary fields only; no request sent; reports only added. *)
Definition classified_from (w w' : World) : Prop :=
  dom (heap w') = dom (heap w) ∧
  (∀ l o o', heap w !! l = Some o → heap w' !! l = Some o' →
             binary_fields_only o o') ∧
  sent w' = sent w ∧ clock w' = clock w ∧
  captured w `prefix_of` captured w'.

(** Every byte of [s] can stand in a path segment: it is unreserved or the
    percent sign. *)
Definition segment_safe (s : string) : bool :=
  forallb (λ c, uri_unreserved c || Ascii.eqb c "%") (list_ascii_of_string s).

Definition sample_object : BackupObject :=
  mkBackupObject "pages" "example.com/a b" (JStr "page").

(** The screenshot of the object at [o] reads as [undefined]. *)
Definition screenshot_cleared (h : Heap) (o : loc) : Prop :=
  ∃ p, h !! o = Some p ∧ field p "screenshot" = JUndefined.

(** [Raven.captureException(e)] as a change of world, for the statements. *)
Definition reported (e : JsError) (w : World) : World :=
  mkWorld (heap w) (captured w ++ [e]) (clock w) (sent w).

(** No byte of [s] is [c]. *)
Fixpoint free_of (c : ascii) (s : string) : bool :=
  match s with
  | EmptyString => true
  | String a rest => negb (Ascii.eqb a c) && free_of c rest
  end.

(** The body whose lines are [lines]: the inverse of [split_lines]. *)
Fixpoint join_lines (lines : list string) : string :=
  match lines with
  | [] => EmptyString
  | [line] => line
  | line :: rest => line +:+ String newline (join_lines rest)
  end.

(** [line] holds an [href] token with value [v]: the text [href=], a quote,
    the non-empty quote-free [v], a quote. *)
Definition href_token (line v : string) : Prop :=
  ∃ before after,
    line = before +:+ href_open +:+ v +:+ String dquote after
    ∧ v ≠ EmptyString ∧ free_of dquote v = true.

(** The value of a hexadecimal digit, and the byte a [%XX] triple stands
    for: the inverse of [percent_encode], for the statements. *)
Definition hex_value (a : ascii) : N :=
  let n := N_of_ascii a in
  (if (48 <=? n) && (n <=? 57) then n - 48 else n - 55)%N.

Definition percent_decode (triple : string) : ascii :=
  match triple with
  | String _ (String high (String low _)) =>
      ascii_of_N (16 * hex_value high + hex_value low)
  | _ => zero
  end.

(** Every byte of [s] is unreserved. *)
Definition unreserved (s : string) : bool :=
  forallb uri_unreserved (list_ascii_of_string s).

(** The record is of a collection whose block in
    [_prepareBackupChangeForStorage] can touch its payload. *)
Definition binary_collection (change : ObjectChange) : Prop :=
  collection change = "pages" ∨ collection change = "favIcons".

(** A record of "pages" has no screenshot left in heap [h]. *)
Definition no_screenshot (h : Heap) (change : ObjectChange) : Prop :=
  collection change = "pages" →
  ∀ o, object change = Some o →
       ∃ p, h !! o = Some p ∧ not_nullish (field p "screenshot") = false.

(** A record of "favIcons" has no favIcon in heap [h]. *)
Definition no_favIcon (h : Heap) (change : ObjectChange) : Prop :=
  collection change = "favIcons" →
  ∀ o, object change = Some o →
       ∃ p, h !! o = Some p ∧ not_nullish (field p "favIcon") = false.

(** The five ways one call of [_prepareBackupChangeForStorage] can go: the
    entries it returns and the world it leaves. *)
Inductive prepare_step `{Platform} (change : ObjectChange) (w : World)
    : list (string * JsValue) → World → Prop :=
  | step_untouched :
      no_screenshot (heap w) change → no_favIcon (heap w) change →
      prepare_step change w [] w
  | step_screenshot o p encoded :
      collection change = "pages" → object change = Some o →
      heap w !! o = Some p → not_nullish (field p "screenshot") = true →
      encodeBlob (field p "screenshot") = inl encoded →
      prepare_step change w [("screenshot", encoded)]
        (set_heap (<[o := <["screenshot" := JUndefined]> p]> (heap w)) w)
  | step_screenshot_failed o p e :
      collection change = "pages" → object change = Some o →
      heap w !! o = Some p → not_nullish (field p "screenshot") = true →
      encodeBlob (field p "screenshot") = inr e →
      prepare_step change w []
        (set_heap (<[o := <["screenshot" := JUndefined]> p]> (heap w))
                  (reported e w))
  | step_favIcon o p encoded :
      collection change = "favIcons" → object change = Some o →
      heap w !! o = Some p → not_nullish (field p "favIcon") = true →
      encodeBlob (field p "favIcon") = inl encoded →
      prepare_step change w []
        (set_heap (<[o := <["favIcon" := encoded]> p]> (heap w)) w)
  | step_favIcon_failed o p e :
      collection change = "favIcons" → object change = Some o →
      heap w !! o = Some p → not_nullish (field p "favIcon") = true →
      encodeBlob (field p "favIcon") = inr e →
      prepare_step change w [] (reported e w).

(** ** Basic facts *)

(** Unfolds the monad and the primitive operations. *)
Ltac run :=
  unfold mbind, Async_bind, mret, Async_ret, get_field, set_field,
    captureException, throw, Date_now; simpl.

Section utils_facts.
Context `{Platform}.

Lemma binary_fields_only_refl (o : Payload) : binary_fields_only o o.
Proof. split; [done | by left]. Qed.

Lemma binary_fields_only_trans (o1 o2 o3 : Payload) :
  binary_fields_only o1 o2 → binary_fields_only o2 o3 →
  binary_fields_only o1 o3.
Proof.
  intros [Hf12 Hs12] [Hf23 Hs23]. split.
  - intros f Hf1 Hf2. rewrite Hf23, Hf12; done.
  - destruct Hs23 as [->| ->]; [exact Hs12 | by right].
Qed.

Lemma classified_from_refl (w : World) : classified_from w w.
Proof.
  split; [done | split; [| done]].
  intros l o o' Ho Ho'. rewrite Ho in Ho'. injection Ho' as <-.
  apply binary_fields_only_refl.
Qed.

Lemma classified_from_trans (w1 w2 w3 : World) :
  classified_from w1 w2 → classified_from w2 w3 → classified_from w1 w3.
Proof.
  intros (Hd12 & Hp12 & Hs12 & Hc12 & Hr12) (Hd23 & Hp23 & Hs23 & Hc23 & Hr23).
  split; [congruence |]. split; [| repeat split; [congruence .. | by etrans]].
  intros l o1 o3 H1 H3.
  assert (is_Some (heap w2 !! l)) as [o2 H2].
  { apply elem_of_dom. rewrite Hd12. apply elem_of_dom. eauto. }
  eapply binary_fields_only_trans; eauto.
Qed.

Lemma allocated_classified (w w' : World) (change : ObjectChange) :
  classified_from w w' → allocated (heap w) change → allocated (heap w') change.
Proof.
  intros (Hd & _) Ha. unfold allocated in *.
  destruct (object change) as [o|]; [|done].
  apply elem_of_dom. rewrite Hd. by apply elem_of_dom.
Qed.

Lemma classified_set_field (w : World) (o : loc) (p : Payload)
    (f : string) (v : JsValue) :
  heap w !! o = Some p →
  (f = "screenshot" ∧ v = JUndefined) ∨ f = "favIcon" →
  classified_from w (set_heap (<[o := <[f := v]> p]> (heap w)) w).
Proof.
  intros Hp Hf. split; [| split; [| repeat split; done]].
  - simpl. rewrite dom_insert_L. apply subseteq_union_1_L.
    apply singleton_subseteq_l, elem_of_dom. eauto.
  - simpl. intros l q q' Hq Hq'.
    destruct (decide (o = l)) as [<- | Hne].
    + rewrite lookup_insert_eq in Hq'. injection Hq' as <-.
      rewrite Hp in Hq. injection Hq as <-. split.
      * intros g Hg1 Hg2. apply lookup_insert_ne.
        destruct Hf as [[-> _] | ->]; congruence.
      * destruct Hf as [[-> ->] | ->].
        -- right. unfold field. by rewrite lookup_insert_eq.
        -- left. unfold field. by rewrite lookup_insert_ne.
    + rewrite lookup_insert_ne in Hq' by done.
      rewrite Hq in Hq'. injection Hq' as <-. apply binary_fields_only_refl.
Qed.

Lemma classified_capture (w : World) (e : JsError) :
  classified_from w (mkWorld (heap w) (captured w ++ [e]) (clock w) (sent w)).
Proof.
  split; [done | split; [| repeat split; try done; by apply prefix_app_r]].
  simpl. intros l o o' Ho Ho'. rewrite Ho in Ho'. injection Ho' as <-.
  apply binary_fields_only_refl.
Qed.

Lemma prepare_screenshot_classified (change : ObjectChange) (w : World) :
  allocated (heap w) change →
  ∃ entries w', prepare_screenshot change w = Returned entries w'
                ∧ classified_from w w'.
Proof.
  unfold allocated, prepare_screenshot. intros Ha.
  destruct (String.eqb _ _); [| eexists _, _; split; [done | apply classified_from_refl]].
  destruct (object change) as [o|]; [| eexists _, _; split; [done | apply classified_from_refl]].
  destruct Ha as [p Hp]. run. rewrite Hp.
  destruct (not_nullish _); [| eexists _, _; split; [done | apply classified_from_refl]].
  destruct (encodeBlob _) as [enc | e]; run; rewrite Hp; eexists _, _; (split; [done |]).
  - apply classified_set_field; auto.
  - eapply classified_from_trans; [apply (classified_capture w e) |].
    apply (classified_set_field (mkWorld _ _ _ _)); auto.
Qed.

Lemma prepare_favIcon_classified (change : ObjectChange) (w : World) :
  allocated (heap w) change →
  ∃ w', prepare_favIcon change w = Returned tt w' ∧ classified_from w w'.
Proof.
  unfold allocated, prepare_favIcon. intros Ha.
  destruct (String.eqb _ _); [| eexists; split; [done | apply classified_from_refl]].
  destruct (object change) as [o|]; [| eexists; split; [done | apply classified_from_refl]].
  destruct Ha as [p Hp]. run. rewrite Hp.
  destruct (not_nullish _); [| eexists; split; [done | apply classified_from_refl]].
  destruct (encodeBlob _) as [enc | e]; run; [rewrite Hp |]; eexists; (split; [done |]).
  - apply classified_set_field; auto.
  - apply classified_capture.
Qed.

Lemma prepare_classified (change : ObjectChange) (w : World) :
  allocated (heap w) change →
  ∃ entries w', _prepareBackupChangeForStorage change w = Returned entries w'
                ∧ classified_from w w'.
Proof.
  intros Ha. unfold _prepareBackupChangeForStorage.
  destruct (prepare_screenshot_classified change w Ha) as (es & w1 & E1 & C1).
  destruct (prepare_favIcon_classified change w1) as (w2 & E2 & C2).
  { eapply allocated_classified; eauto. }
  exists es, w2. split; [| eapply classified_from_trans; eauto].
  run. rewrite E1. by rewrite E2.
Qed.

Lemma separate_loop_classified (changes : list ObjectChange) :
  ∀ (acc : list ExtractedImage) (w : World),
    Forall (allocated (heap w)) changes →
    ∃ images w', separate_loop changes acc w = Returned images w'
                 ∧ classified_from w w'.
Proof.
  induction changes as [| change rest IH]; intros acc w Hall.
  - exists acc, w. split; [done | apply classified_from_refl].
  - apply Forall_cons in Hall as [Ha Hrest].
    destruct (prepare_classified change w Ha) as (es & w1 & E1 & C1).
    destruct (IH (acc ++ images_of_entries change es) w1) as (imgs & w2 & E2 & C2).
    { eapply Forall_impl; [exact Hrest |].
      intros c Hc. eapply allocated_classified; eauto. }
    exists imgs, w2. split; [| eapply classified_from_trans; eauto].
    simpl. run. by rewrite E1.
Qed.

(** The exact effect of the "pages" block on a record it applies to. *)
Lemma prepare_pages (change : ObjectChange) (o : loc) (p : Payload) (w : World) :
  collection change = "pages" → object change = Some o →
  heap w !! o = Some p → not_nullish (field p "screenshot") = true →
  _prepareBackupChangeForStorage change w =
    match encodeBlob (field p "screenshot") with
    | inl encoded =>
        Returned [("screenshot", encoded)]
          (set_heap (<[o := <["screenshot" := JUndefined]> p]> (heap w)) w)
    | inr e =>
        Returned []
          (set_heap (<[o := <["screenshot" := JUndefined]> p]> (heap w))
                    (reported e w))
    end.
Proof.
  intros Hc Ho Hp Hs.
  unfold _prepareBackupChangeForStorage, prepare_screenshot, prepare_favIcon.
  rewrite Hc, Ho. run. rewrite Hp, Hs.
  destruct (encodeBlob _) as [enc | e]; run; by rewrite Hp.
Qed.

(** The exact effect of the "favIcons" block on a record it applies to. *)
Lemma prepare_favIcons (change : ObjectChange) (o : loc) (p : Payload) (w : World) :
  collection change = "favIcons" → object change = Some o →
  heap w !! o = Some p → not_nullish (field p "favIcon") = true →
  _prepareBackupChangeForStorage change w =
    match encodeBlob (field p "favIcon") with
    | inl encoded =>
        Returned [] (set_heap (<[o := <["favIcon" := encoded]> p]> (heap w)) w)
    | inr e => Returned [] (reported e w)
    end.
Proof.
  intros Hc Ho Hp Hs.
  unfold _prepareBackupChangeForStorage, prepare_screenshot, prepare_favIcon.
  rewrite Hc, Ho. run. rewrite Hp, Hs.
  destruct (encodeBlob _) as [enc | e]; run; [by rewrite Hp | done].
Qed.

Lemma prepare_null_object (change : ObjectChange) (w : World) :
  object change = None →
  _prepareBackupChangeForStorage change w = Returned [] w.
Proof.
  intros Ho.
  unfold _prepareBackupChangeForStorage, prepare_screenshot, prepare_favIcon.
  rewrite Ho. run. by do 2 destruct (String.eqb _ _).
Qed.

Lemma screenshot_cleared_classified (w w' : World) (o : loc) :
  classified_from w w' → screenshot_cleared (heap w) o →
  screenshot_cleared (heap w') o.
Proof.
  intros (Hd & Hp & _) (p & Hl & Hs).
  assert (is_Some (heap w' !! o)) as [p' Hl'].
  { apply elem_of_dom. rewrite Hd. apply elem_of_dom. eauto. }
  exists p'. split; [done |].
  destruct (Hp o p p' Hl Hl') as [_ [E | E]]; congruence.
Qed.

(** Once a record of "pages" is in the list, its screenshot ends up cleared,
    whether it is this record's turn that clears it or an earlier turn of a
    record that shares the payload. *)
Lemma separate_loop_clears (change : ObjectChange) (o : loc)
    (changes : list ObjectChange) :
  collection change = "pages" → object change = Some o →
  ∀ (acc : list ExtractedImage) (w : World) (p : Payload),
    change ∈ changes → Forall (allocated (heap w)) changes →
    heap w !! o = Some p →
    not_nullish (field p "screenshot") = true
      ∨ field p "screenshot" = JUndefined →
    ∃ images w', separate_loop changes acc w = Returned images w'
                 ∧ classified_from w w'
                 ∧ screenshot_cleared (heap w') o.
Proof.
  intros Hc Ho.
  induction changes as [| c rest IH]; intros acc w p Hin Hall Hp Hs.
  - by apply elem_of_nil in Hin.
  - apply Forall_cons in Hall as [Ha Hrest].
    destruct (prepare_classified c w Ha) as (es & w1 & E1 & C1).
    assert (Forall (allocated (heap w1)) rest) as Hrest1.
    { eapply Forall_impl; [exact Hrest |].
      intros c' Hc'. eapply allocated_classified; eauto. }
    simpl. run. rewrite E1.
    assert (is_Some (heap w1 !! o)) as [p1 Hp1].
    { destruct C1 as (Hd & _). apply elem_of_dom. rewrite Hd.
      apply elem_of_dom. eauto. }
    assert (field p1 "screenshot" = field p "screenshot"
            ∨ field p1 "screenshot" = JUndefined) as Hs1.
    { destruct C1 as (_ & Hb & _). by destruct (Hb o p p1 Hp Hp1). }
    destruct (decide (change = c)) as [<- | Hne].
    + assert (screenshot_cleared (heap w1) o) as Hcl.
      { destruct Hs as [Hs | Hs].
        - rewrite (prepare_pages change o p w Hc Ho Hp Hs) in E1.
          exists (<["screenshot" := JUndefined]> p). unfold field.
          destruct (encodeBlob _); injection E1 as _ <-; simpl;
            by rewrite !lookup_insert_eq.
        - exists p1. split; [done |]. destruct Hs1; congruence. }
      destruct (separate_loop_classified rest
                  (acc ++ images_of_entries change es) w1 Hrest1)
        as (imgs & w2 & E2 & C2).
      exists imgs, w2. split; [done |].
      split; [eapply classified_from_trans; eauto |].
      eapply screenshot_cleared_classified; eauto.
    + apply elem_of_cons in Hin as [-> | Hin]; [done |].
      destruct (IH (acc ++ images_of_entries c es) w1 p1 Hin Hrest1 Hp1)
        as (imgs & w2 & E2 & C2 & Hcl).
      { destruct Hs1 as [-> | ->]; [exact Hs | by right]. }
      exists imgs, w2. split; [done |].
      split; [eapply classified_from_trans; eauto | done].
Qed.

Lemma separate_classified (changes : list ObjectChange) (w : World) :
  Forall (allocated (heap w)) changes →
  ∃ images w',
    separateDataFromImageChanges changes w = Returned (changes, images) w'
    ∧ classified_from w w'.
Proof.
  intros Hall.
  destruct (separate_loop_classified changes [] w Hall) as (imgs & w' & E & C).
  exists imgs, w'. split; [| exact C].
  unfold separateDataFromImageChanges. run. by rewrite E.
Qed.
End utils_facts.

(** ** Facts on the listing parser *)

Section string_facts.
#[local] Arguments String.append !_ _ / : simpl nomatch.

Lemma append_nil_r (s : string) : s +:+ "" = s.
Proof. induction s as [| c s IH]; simpl; congruence. Qed.

Lemma append_assoc (s1 s2 s3 : string) :
  (s1 +:+ s2) +:+ s3 = s1 +:+ (s2 +:+ s3).
Proof. induction s1 as [| c s1 IH]; simpl; congruence. Qed.

Lemma strip_prefix_Some (p s r : string) :
  strip_prefix p s = Some r ↔ s = p +:+ r.
Proof.
  revert s. induction p as [| a p IH]; intros s; simpl.
  - split; congruence.
  - destruct s as [| b s]; [split; discriminate |].
    destruct (Ascii.eqb_spec a b) as [<- | Hne].
    + rewrite IH. split; congruence.
    + split; [discriminate | congruence].
Qed.

Lemma span_unquoted_spec (s : string) :
  s = fst (span_unquoted s) +:+ snd (span_unquoted s)
  ∧ free_of dquote (fst (span_unquoted s)) = true
  ∧ (snd (span_unquoted s) = EmptyString
     ∨ ∃ t, snd (span_unquoted s) = String dquote t).
Proof.
  induction s as [| c s (IH1 & IH2 & IH3)]; simpl.
  - auto.
  - destruct (Ascii.eqb_spec c dquote) as [-> | Hne]; simpl.
    + eauto.
    + destruct (span_unquoted s) as [v t]; simpl in *.
      apply Ascii.eqb_neq in Hne. rewrite Hne. simpl.
      split; [congruence | auto].
Qed.

Lemma span_unquoted_app (v t : string) :
  free_of dquote v = true →
  span_unquoted (v +:+ String dquote t) = (v, String dquote t).
Proof.
  induction v as [| c v IH]; simpl; intros Hv.
  - done.
  - apply andb_true_iff in Hv as [Hc Hv].
    apply negb_true_iff in Hc. rewrite Hc. by rewrite IH.
Qed.

Lemma match_href_here_Some (s v : string) :
  match_href_here s = Some v ↔
  ∃ after, s = href_open +:+ v +:+ String dquote after
           ∧ v ≠ EmptyString ∧ free_of dquote v = true.
Proof.
  unfold match_href_here. split.
  - destruct (strip_prefix href_open s) as [r |] eqn:E; [| discriminate].
    apply strip_prefix_Some in E.
    destruct (span_unquoted_spec r) as (Hr & Hfree & Htail).
    destruct (span_unquoted r) as [[| c u] t]; simpl in *; [discriminate |].
    destruct t as [| q t]; [discriminate |].
    destruct Htail as [? | [t' Ht]]; [discriminate |]. injection Ht as -> ->.
    intros [= <-]. exists t'. by rewrite E, Hr.
  - intros (after & -> & Hne & Hfree).
    assert (strip_prefix href_open
              (href_open +:+ v +:+ String dquote after)
            = Some (v +:+ String dquote after)) as -> by by apply strip_prefix_Some.
    rewrite span_unquoted_app by done.
    by destruct v.
Qed.

Lemma exec_href_sound (line v : string) :
  exec_href line = Some v → href_token line v.
Proof.
  induction line as [| c line IH]; simpl.
  - discriminate.
  - destruct (match_href_here (String c line)) as [u |] eqn:E.
    + intros [= <-]. apply match_href_here_Some in E as (after & -> & ? & ?).
      by exists "", after.
    + intros Hv. destruct (IH Hv) as (before & after & -> & ? & ?).
      by exists (String c before), after.
Qed.

Lemma exec_href_unfold (c : ascii) (s : string) :
  exec_href (String c s) =
    match match_href_here (String c s) with
    | Some v => Some v
    | None => exec_href s
    end.
Proof. done. Qed.

Lemma exec_href_here (s v : string) :
  match_href_here s = Some v → exec_href s = Some v.
Proof.
  intros E. destruct s as [| c s]; [by cbv in E |].
  by rewrite exec_href_unfold, E.
Qed.

Lemma exec_href_complete (line v : string) :
  href_token line v → is_Some (exec_href line).
Proof.
  intros (before & after & -> & Hne & Hfree).
  assert (match_href_here (href_open +:+ v +:+ String dquote after) = Some v)
    as Hhere by (apply match_href_here_Some; eauto).
  induction before as [| c before IH].
  - exists v. by apply exec_href_here.
  - change (String c before +:+ ?x) with (String c (before +:+ x)).
    rewrite exec_href_unfold. destruct (match_href_here (String c _)); [eauto | done].
Qed.

Lemma parse_listing_omap (body : string) :
  parse_listing body = omap exec_href (split_lines body).
Proof.
  unfold parse_listing. generalize (split_lines body). intros lines.
  induction lines as [| line lines IH]; [done |].
  change (omap id (map exec_href (line :: lines)))
    with (match exec_href line with
          | Some key => key :: omap id (map exec_href lines)
          | None => omap id (map exec_href lines)
          end).
  rewrite IH. reflexivity.
Qed.

Lemma split_lines_not_nil (body : string) : split_lines body ≠ [].
Proof.
  destruct body as [| c body]; simpl; [done |].
  destruct (Ascii.eqb c newline); [done |]. by destruct (split_lines body).
Qed.

Lemma split_lines_line (line : string) :
  free_of newline line = true → split_lines line = [line].
Proof.
  induction line as [| c line IH]; simpl; [done |].
  intros Hf. apply andb_true_iff in Hf as [Hc Hf].
  apply negb_true_iff in Hc. rewrite Hc. by rewrite IH.
Qed.

Lemma split_lines_app (line rest : string) :
  free_of newline line = true →
  split_lines (line +:+ String newline rest) = line :: split_lines rest.
Proof.
  induction line as [| c line IH]; simpl; intros Hf.
  - done.
  - apply andb_true_iff in Hf as [Hc Hf].
    apply negb_true_iff in Hc. rewrite Hc. by rewrite IH.
Qed.

Lemma split_lines_join (lines : list string) :
  lines ≠ [] → Forall (λ line, free_of newline line = true) lines →
  split_lines (join_lines lines) = lines.
Proof.
  induction lines as [| line rest IH]; [done |]. intros _ Hall.
  apply Forall_cons in Hall as [Hl Hrest].
  destruct rest as [| line' rest].
  - by apply split_lines_line.
  - change (join_lines (line :: line' :: rest))
      with (line +:+ String newline (join_lines (line' :: rest))).
    rewrite split_lines_app by done. by rewrite IH.
Qed.

Lemma join_split_lines (body : string) :
  join_lines (split_lines body) = body
  ∧ Forall (λ line, free_of newline line = true) (split_lines body).
Proof.
  induction body as [| c body [IH1 IH2]]; simpl.
  - split; [done | by constructor].
  - destruct (Ascii.eqb_spec c newline) as [-> | Hne].
    + pose proof (split_lines_not_nil body) as Hnil.
      destruct (split_lines body) as [| line rest]; [done |].
      split; [simpl in *; by rewrite IH1 | by constructor].
    + pose proof (split_lines_not_nil body) as Hnil.
      destruct (split_lines body) as [| line rest]; [done |].
      apply Forall_cons in IH2 as [Hl Hrest]. split.
      * destruct rest; simpl in *; by rewrite <- IH1.
      * constructor; [| done]. simpl. apply Ascii.eqb_neq in Hne.
        by rewrite Hne.
Qed.

(** ** Facts on [encodeURIComponent] *)

Lemma segment_safe_app (s t : string) :
  segment_safe (s +:+ t) = segment_safe s && segment_safe t.
Proof.
  unfold segment_safe. induction s as [| c s IH]; simpl; [done |].
  rewrite IH. by rewrite andb_assoc.
Qed.

Lemma percent_encode_safe (c : ascii) : segment_safe (percent_encode c) = true.
Proof. destruct c as [[] [] [] [] [] [] [] []]; vm_compute; reflexivity. Qed.

Lemma encodeURIComponent_safe (s : string) :
  segment_safe (encodeURIComponent s) = true.
Proof.
  induction s as [| c s IH]; [done |].
  change (encodeURIComponent (String c s))
    with ((if uri_unreserved c then String c "" else percent_encode c)
            +:+ encodeURIComponent s).
  rewrite segment_safe_app, IH, andb_true_r.
  destruct (uri_unreserved c) eqn:E; [| apply percent_encode_safe].
  unfold segment_safe. simpl. by rewrite E.
Qed.

Lemma segment_safe_no_slash (s : string) :
  segment_safe s = true → free_of "/" s = true.
Proof.
  unfold segment_safe. induction s as [| c s IH]; simpl; [done |].
  intros Hs. apply andb_true_iff in Hs as [Hc Hs]. rewrite (IH Hs), andb_true_r.
  destruct (Ascii.eqb_spec c "/") as [-> | Hne]; [| done].
  vm_compute in Hc. discriminate.
Qed.

End string_facts.

(** ** Facts on the transport *)

Section backend_facts.
Context `{Platform}.

Lemma writeToPath_outcome (this : SimpleHttpBackend) (path : string)
    (body : option string) (w : World) :
  let request := mkRequest PUT (url this +:+ "/" +:+ path) body in
  _writeToPath this path body w =
    match remote (sent w) request with
    | Resolved _ => Returned tt (logged request w)
    | Rejected e => Thrown e (logged request w)
    end.
Proof.
  unfold _writeToPath, fetch. run. by destruct (remote _ _).
Qed.

Lemma writeToPath_requests (this : SimpleHttpBackend) (path : string)
    (body : option string) (w : World) :
  requests (_writeToPath this path body w)
  = sent w ++ [mkRequest PUT (url this +:+ "/" +:+ path) body].
Proof.
  rewrite writeToPath_outcome. by destruct (remote _ _).
Qed.

Lemma shouldWriteImages_true (images : list ExtractedImage) (storeBlobs : bool) :
  shouldWriteImages images storeBlobs = true ↔ storeBlobs = true ∧ images ≠ [].
Proof.
  unfold shouldWriteImages.
  destruct storeBlobs, images; simpl; split; try done; by intros [? ?].
Qed.

(** [backupChanges] from the point where classification has returned. *)
Lemma backupChanges_after_classification (this : SimpleHttpBackend)
    (changes : list ObjectChange) (version : Z) (storeBlobs : bool)
    (w w1 : World) (images : list ExtractedImage) :
  separateDataFromImageChanges changes w = Returned (changes, images) w1 →
  let changes_request :=
    mkRequest PUT (url this +:+ "/" +:+ "change-sets/" +:+ pretty (clock w1))
      (Some (JSON_stringify_indent4
               (ChangeSetDocument version changes (heap w1)))) in
  backupChanges this changes version storeBlobs w =
    match remote (sent w1) changes_request with
    | Rejected e => Thrown e (logged changes_request w1)
    | Resolved _ =>
        if shouldWriteImages images storeBlobs then
          _writeToPath this ("images/" +:+ pretty (clock w1))
            (Some (JSON_stringify_indent4 (ImagesDocument version images)))
            (logged changes_request w1)
        else Returned tt (logged changes_request w1)
    end.
Proof.
  intros E changes_request. subst changes_request.
  unfold backupChanges. run. rewrite E. simpl.
  rewrite writeToPath_outcome. simpl.
  destruct (remote _ _); [| done].
  by destruct (shouldWriteImages images storeBlobs).
Qed.
End backend_facts.

(** ** Classification: the claims on [backend/utils.ts] *)

Section classification.
Context `{Platform}.

(** C10: a record whose payload is null is classified without touching the
    world, whatever its collection: no image entry comes out of it, the loop
    goes on with the images it had, and the heap is not consulted (the
    equations hold in every world, also one with no object at all). *)
Theorem null_payload_classified_as_is (change : ObjectChange) (w : World) :
  object change = None →
  _prepareBackupChangeForStorage change w = Returned [] w
  ∧ (∀ rest acc,
       separate_loop (change :: rest) acc w = separate_loop rest acc w)
  ∧ separateDataFromImageChanges [change] w = Returned ([change], []) w.
Proof.
  intros Ho. pose proof (prepare_null_object change w Ho) as E.
  split; [exact E |]. split.
  - intros rest acc. simpl. run. rewrite E. simpl. by rewrite app_nil_r.
  - unfold separateDataFromImageChanges. simpl. run. by rewrite E.
Qed.

(** C9: the changes that come back are the array that went in, record for
    record; in the heap the same objects exist as before and each differs
    from what it was in its screenshot and favIcon fields at most; no request
    is sent. *)
Theorem changes_returned_in_place (changes : list ObjectChange) (w : World) :
  Forall (allocated (heap w)) changes →
  ∃ images w',
    separateDataFromImageChanges changes w = Returned (changes, images) w'
    ∧ classified_from w w'.
Proof.
  exact (separate_classified changes w).
Qed.

(** C4: a record of "favIcons" whose payload has a non-null favIcon keeps the
    field: it holds the encoded value when encoding succeeds and its old
    value when encoding fails; the other fields stay; no image entry is made,
    so the loop goes on with the images it had. *)
Theorem favIcon_encoded_in_place (change : ObjectChange) (o : loc)
    (p : Payload) (w : World) :
  collection change = "favIcons" → object change = Some o →
  heap w !! o = Some p → not_nullish (field p "favIcon") = true →
  ∃ w' p',
    _prepareBackupChangeForStorage change w = Returned [] w'
    ∧ heap w' !! o = Some p'
    ∧ field p' "favIcon" = match encodeBlob (field p "favIcon") with
                           | inl encoded => encoded
                           | inr _ => field p "favIcon"
                           end
    ∧ (∀ f, f ≠ "favIcon" → p' !! f = p !! f)
    ∧ (∀ rest acc,
         separate_loop (change :: rest) acc w = separate_loop rest acc w')
    ∧ separateDataFromImageChanges [change] w = Returned ([change], []) w'.
Proof.
  intros Hc Ho Hp Hs.
  pose proof (prepare_favIcons change o p w Hc Ho Hp Hs) as E.
  assert (∃ w' p', _prepareBackupChangeForStorage change w = Returned [] w'
            ∧ heap w' !! o = Some p'
            ∧ field p' "favIcon" = match encodeBlob (field p "favIcon") with
                                   | inl encoded => encoded
                                   | inr _ => field p "favIcon"
                                   end
            ∧ (∀ f, f ≠ "favIcon" → p' !! f = p !! f))
    as (w' & p' & E' & Hp' & Hv & Hother).
  { destruct (encodeBlob _) as [enc | e]; eexists _, _; (split; [exact E |]).
    - simpl. rewrite lookup_insert_eq. split; [done |]. split.
      + unfold field. by rewrite lookup_insert_eq.
      + intros f Hf. by apply lookup_insert_ne.
    - simpl. by rewrite Hp. }
  exists w', p'. repeat (split; [done |]). split.
  - intros rest acc. simpl. run. rewrite E'. simpl. by rewrite app_nil_r.
  - unfold separateDataFromImageChanges. simpl. run. by rewrite E'.
Qed.

(** C1: a record of "pages" whose payload has a non-null screenshot.  Its
    classification clears the field whether or not encoding succeeds, and
    adds to the images exactly one entry of type "screenshot" carrying the
    record's collection and key when encoding succeeds (none when it fails).
    For a record anywhere in a batch whose screenshot is there when the batch
    is handed over, the field is cleared in the changes that come back. *)
Theorem screenshot_extracted_and_cleared (change : ObjectChange) (o : loc)
    (p : Payload) (w : World) :
  collection change = "pages" → object change = Some o →
  heap w !! o = Some p → not_nullish (field p "screenshot") = true →
  let extracted :=
    match encodeBlob (field p "screenshot") with
    | inl encoded =>
        [mkImage (collection change) (objectPk change) "screenshot" encoded]
    | inr _ => []
    end in
  (∃ entries w',
     _prepareBackupChangeForStorage change w = Returned entries w'
     ∧ images_of_entries change entries = extracted
     ∧ screenshot_cleared (heap w') o
     ∧ (∀ rest acc,
          separate_loop (change :: rest) acc w
          = separate_loop rest (acc ++ extracted) w')
     ∧ separateDataFromImageChanges [change] w
       = Returned ([change], extracted) w')
  ∧ (∀ changes,
       change ∈ changes → Forall (allocated (heap w)) changes →
       ∃ images w',
         separateDataFromImageChanges changes w = Returned (changes, images) w'
         ∧ screenshot_cleared (heap w') o).
Proof.
  intros Hc Ho Hp Hs extracted. split.
  - pose proof (prepare_pages change o p w Hc Ho Hp Hs) as E.
    assert (∃ entries w',
              _prepareBackupChangeForStorage change w = Returned entries w'
              ∧ images_of_entries change entries = extracted
              ∧ screenshot_cleared (heap w') o)
      as (entries & w' & E' & Himgs & Hcl).
    { subst extracted.
      destruct (encodeBlob _) as [enc | e]; eexists _, _;
        (split; [exact E |]); (split; [done |]);
        exists (<["screenshot" := JUndefined]> p); simpl; unfold field;
        by rewrite !lookup_insert_eq. }
    exists entries, w'. repeat (split; [done |]). split.
    + intros rest acc. simpl. run. rewrite E'. by rewrite Himgs.
    + unfold separateDataFromImageChanges. simpl. run. rewrite E'.
      simpl. by rewrite Himgs.
  - intros changes Hin Hall.
    destruct (separate_loop_clears change o changes Hc Ho [] w p Hin Hall Hp)
      as (imgs & w' & E & _ & Hcl); [by left |].
    exists imgs, w'. split; [| exact Hcl].
    unfold separateDataFromImageChanges. run. by rewrite E.
Qed.
End classification.

(** ** The backend: the claims on [SimpleHttpBackend] *)

Section backend_claims.
Context `{Platform}.

(** C7: [deleteObject] throws its "not implemented" error on every input and
    leaves the world as it was: no request has been handed to [fetch]. *)
Theorem deleteObject_not_implemented (this : SimpleHttpBackend)
    (backupObject : BackupObjectLocation) (w : World) :
  deleteObject this backupObject w = Thrown (Error "Not yet implemented  :(") w
  ∧ requests (deleteObject this backupObject w) = sent w.
Proof. split; reflexivity. Qed.

(** C8, as the code has it: for a primary key that is a well-formed string
    (the strings of this file; on a lone surrogate [encodeURIComponent]
    throws and nothing is written), [storeObject] hands [fetch] one PUT
    whose path is the collection, a slash and the primary key passed twice
    through [encodeURIComponent], a key that holds no slash of its own.  The
    body is what [JSON.stringify] returned for the object: its JSON text when
    the object is not [undefined], and no body at all when it is. *)
Theorem storeObject_key_doubly_encoded (this : SimpleHttpBackend)
    (backupObject : BackupObject) (w : World) :
  let key := encodeURIComponent (encodeURIComponent (bo_pk backupObject)) in
  let request :=
    mkRequest PUT (url this +:+ "/" +:+ bo_collection backupObject +:+ "/" +:+ key)
              (JSON_stringify_result (bo_object backupObject)) in
  final_world (storeObject this backupObject w) = Some (logged request w)
  ∧ requests (storeObject this backupObject w) = sent w ++ [request]
  ∧ segment_safe key = true ∧ free_of "/" key = true
  ∧ (bo_object backupObject ≠ JUndefined →
     req_body request = Some (JSON_stringify (bo_object backupObject)))
  ∧ (bo_object backupObject = JUndefined → req_body request = None).
Proof.
  intros key request. unfold storeObject. split; [| split].
  - rewrite writeToPath_outcome. by destruct (remote _ _).
  - by rewrite writeToPath_requests.
  - split; [apply encodeURIComponent_safe |].
    split; [apply segment_safe_no_slash, encodeURIComponent_safe |].
    subst request. simpl. split.
    + intros Hdef. by destruct (bo_object backupObject).
    + by intros ->.
Qed.

(** C5: what [listObjects] makes of a response: the empty list on status
    404; an error whose message is the body on any other status outside
    200-299; the parsed keys on a status in 200-299. *)
Theorem listObjects_by_status (this : SimpleHttpBackend) (collection : string)
    (w : World) (response : Response) :
  let request := mkRequest GET (url this +:+ "/" +:+ collection) None in
  remote (sent w) request = Resolved response →
  (status response = 404 →
     listObjects this collection w = Returned [] (logged request w))
  ∧ (status response ≠ 404 → ok response = false →
     listObjects this collection w
     = Thrown (Error (text response)) (logged request w))
  ∧ (ok response = true →
     listObjects this collection w
     = Returned (parse_listing (text response)) (logged request w)).
Proof.
  intros request Hr. subst request.
  unfold listObjects, fetch. run. rewrite Hr.
  split; [| split].
  - intros ->. done.
  - intros Hs ->. apply Z.eqb_neq in Hs. by rewrite Hs.
  - intros Hok. rewrite Hok. unfold ok in Hok.
    apply andb_true_iff in Hok as [Hlo Hhi].
    apply Z.leb_le in Hlo, Hhi.
    destruct (Z.eqb_spec (status response) 404) as [E | _]; [lia | done].
Qed.

(** C2, as the code has it: [backupChanges] first hands [fetch] one PUT of
    the version and the classified changes to change-sets/t, with t the clock
    reading, and after it at most one more request, the PUT of the version
    and the images to images/t for the same t.  When the first request is
    rejected the cycle ends there with that error.  When it is answered with
    a success status, the images request follows if and only if [storeBlobs]
    is set and there is an image. *)
Theorem backupChanges_writes (this : SimpleHttpBackend)
    (changes : list ObjectChange) (version : Z) (storeBlobs : bool)
    (w : World) :
  Forall (allocated (heap w)) changes →
  ∃ images w1,
    separateDataFromImageChanges changes w = Returned (changes, images) w1
    ∧ let t := pretty (clock w) in
      let changes_request :=
        mkRequest PUT (url this +:+ "/" +:+ "change-sets/" +:+ t)
          (Some (JSON_stringify_indent4
                   (ChangeSetDocument version changes (heap w1)))) in
      let images_request :=
        mkRequest PUT (url this +:+ "/" +:+ "images/" +:+ t)
          (Some (JSON_stringify_indent4 (ImagesDocument version images))) in
      let out := backupChanges this changes version storeBlobs w in
      (requests out = sent w ++ [changes_request]
       ∨ requests out = sent w ++ [changes_request; images_request])
      ∧ (∀ e, remote (sent w) changes_request = Rejected e →
           out = Thrown e (logged changes_request w1)
           ∧ requests out = sent w ++ [changes_request])
      ∧ (∀ r, remote (sent w) changes_request = Resolved r → ok r = true →
           (requests out = sent w ++ [changes_request; images_request]
            ↔ storeBlobs = true ∧ images ≠ [])
           ∧ (requests out = sent w ++ [changes_request]
              ↔ ¬ (storeBlobs = true ∧ images ≠ []))).
Proof.
  intros Hall.
  destruct (separate_classified changes w Hall)
    as (images & w1 & E & (_ & _ & Hsent & Hclock & _)).
  exists images, w1. split; [exact E |].
  intros t changes_request images_request out.
  assert (out =
    match remote (sent w) changes_request with
    | Rejected e => Thrown e (logged changes_request w1)
    | Resolved _ =>
        if shouldWriteImages images storeBlobs then
          _writeToPath this ("images/" +:+ t)
            (Some (JSON_stringify_indent4 (ImagesDocument version images)))
            (logged changes_request w1)
        else Returned tt (logged changes_request w1)
    end) as Hout.
  { subst out changes_request t. rewrite <- Hsent, <- Hclock.
    by apply backupChanges_after_classification. }
  assert (requests (_writeToPath this ("images/" +:+ t)
            (Some (JSON_stringify_indent4 (ImagesDocument version images)))
            (logged changes_request w1))
          = sent w ++ [changes_request; images_request]) as Himg.
  { rewrite writeToPath_requests. simpl. rewrite Hsent.
    by rewrite <- app_assoc. }
  assert (requests (A := unit) (Returned tt (logged changes_request w1))
          = sent w ++ [changes_request]) as Hone.
  { unfold requests. simpl. by rewrite Hsent. }
  assert (sent w ++ [changes_request; images_request]
          ≠ sent w ++ [changes_request]) as Hdiff.
  { intros Heq. by apply app_inv_head in Heq. }
  pose proof (shouldWriteImages_true images storeBlobs) as Hshould.
  split; [| split].
  - rewrite Hout. destruct (remote _ _) as [r | e].
    + destruct (shouldWriteImages images storeBlobs); [by right | by left].
    + left. unfold requests. simpl. by rewrite Hsent.
  - intros e He. rewrite Hout, He. split; [done |].
    unfold requests. simpl. by rewrite Hsent.
  - intros r Hr _. rewrite Hout, Hr.
    destruct (shouldWriteImages images storeBlobs).
    + rewrite Himg. split; split; try done.
      * intros _. by apply Hshould.
      * intros Hn. destruct Hn. by apply Hshould.
    + rewrite Hone. split; split; try done.
      * intros Hs. apply Hshould in Hs. discriminate.
      * intros _ Hs. apply Hshould in Hs. discriminate.
Qed.
End backend_claims.

(** C6: the parser of a listing.  The body is cut at its newlines into
    lines that give the body back when joined; the result holds, in the
    order of the lines, one key for each line with an [href] token and
    nothing for the other lines; a key is found on a line only if the line
    holds the token with that key, and a line without a key holds no token;
    a line that comes twice gives its key twice. *)
Theorem parse_listing_line_by_line (body : string) :
  join_lines (split_lines body) = body
  ∧ Forall (λ line, free_of newline line = true) (split_lines body)
  ∧ parse_listing body = omap exec_href (split_lines body)
  ∧ (∀ lines, lines ≠ [] →
       Forall (λ line, free_of newline line = true) lines →
       parse_listing (join_lines lines) = omap exec_href lines)
  ∧ (∀ line key, exec_href line = Some key → href_token line key)
  ∧ (∀ line, exec_href line = None → ∀ key, ¬ href_token line key)
  ∧ (∀ line key, free_of newline line = true → exec_href line = Some key →
       parse_listing (line +:+ String newline line) = [key; key]).
Proof.
  destruct (join_split_lines body) as [Hjoin Hfree].
  assert (∀ lines, lines ≠ [] →
            Forall (λ line, free_of newline line = true) lines →
            parse_listing (join_lines lines) = omap exec_href lines) as Hlines.
  { intros lines Hne Hall.
    by rewrite parse_listing_omap, split_lines_join. }
  split; [exact Hjoin |]. split; [exact Hfree |].
  split; [apply parse_listing_omap |].
  split; [exact Hlines |]. split; [apply exec_href_sound |]. split.
  - intros line Hnone key Htok.
    destruct (exec_href_complete line key Htok) as [v Hv]. congruence.
  - intros line key Hfl Hkey.
    change (line +:+ String newline line) with (join_lines [line; line]).
    rewrite Hlines; [| done | by repeat constructor].
    simpl. by rewrite Hkey.
Qed.

(** ** The code at sample inputs *)

Example parse_listing_two_links :
  parse_listing (listing_line "1234" +:+ String newline "<hr>"
                   +:+ String newline (listing_line "5678"))
  = ["1234"; "5678"].
Proof. vm_compute. reflexivity. Qed.

Example parse_listing_empty_body : parse_listing "" = [].
Proof. reflexivity. Qed.

Example encodeURIComponent_twice :
  encodeURIComponent "a/b c%" = "a%2Fb%20c%25"
  ∧ encodeURIComponent (encodeURIComponent "a/b c%") = "a%252Fb%2520c%2525".
Proof. split; vm_compute; reflexivity. Qed.

Example shouldWriteImages_table (x : ExtractedImage) :
  shouldWriteImages [] true = false
  ∧ shouldWriteImages [x] false = false
  ∧ shouldWriteImages [x] true = true.
Proof. repeat split. Qed.

(** ** The claims at sample inputs *)

(** C3: a PUT that the server answers with status 500 does not make
    [storeObject] fail: it returns.  In [backupChanges], with the change-sets
    write answered by 500 and blobs to store, the images write is still made
    and the call returns, so the images object is stored and the changes
    object is not. *)
Theorem store_returns_on_error_status :
  (let out := storeObject (H := sample_platform server_error)
                sample_backend sample_object sample_world in
   returned_value out = Some tt
   ∧ map req_url (requests out)
     = ["http://localhost:11923/pages/example.com%252Fa%2520b"]
   ∧ ∃ r, server_error [] (mkRequest PUT
            "http://localhost:11923/pages/example.com%252Fa%2520b"
            (Some (sample_stringify (JStr "page")))) = Resolved r
          ∧ ok r = false)
  ∧ (let out := backupChanges (H := sample_platform server_fails_first)
                  sample_backend [page_change] 7 true sample_world in
     returned_value out = Some tt
     ∧ map req_url (requests out)
       = ["http://localhost:11923/change-sets/1541203200123";
          "http://localhost:11923/images/1541203200123"]
     ∧ ∃ first r, head (requests out) = Some first
                  ∧ server_fails_first [] first = Resolved r ∧ ok r = false).
Proof.
  split.
  - split; [vm_compute; reflexivity |]. split; [vm_compute; reflexivity |].
    eexists. split; reflexivity.
  - split; [vm_compute; reflexivity |]. split; [vm_compute; reflexivity |].
    eexists _, _. split; [vm_compute; reflexivity |]. split; reflexivity.
Qed.

(** C2 as it is written fails when the server cannot be reached: blobs are to
    be stored and one image was extracted, yet the only request made is the
    change-sets write. *)
Lemma backupChanges_unreachable_skips_images :
  let images :=
    [mkImage "pages" (JStr "example.com/a") "screenshot"
             (JStr "data:image/png;base64,iVBORw0KGgo=")] in
  let out := backupChanges (H := sample_platform server_unreachable)
               sample_backend [page_change] 7 true sample_world in
  snd <$> returned_value
            (separateDataFromImageChanges
               (H := sample_platform server_unreachable)
               [page_change] sample_world) = Some images
  ∧ ¬ ("http://localhost:11923/images/1541203200123"
         ∈ map req_url (requests out)
       ↔ true = true ∧ images ≠ []).
Proof.
  split; [vm_compute; reflexivity |].
  intros [_ Hwritten].
  assert ("http://localhost:11923/images/1541203200123"
            ∈ ["http://localhost:11923/change-sets/1541203200123"]) as Hin.
  { apply Hwritten. split; [reflexivity | discriminate]. }
  apply list_elem_of_singleton in Hin. discriminate.
Qed.

(** C8 as it is written fails for an object that is [undefined]: the PUT goes
    to the right path but carries no body, serialised or other. *)
Lemma storeObject_undefined_object_has_no_body :
  let out := storeObject (H := sample_platform server_created) sample_backend
               (mkBackupObject "pages" "example.com/a b" JUndefined)
               sample_world in
  requests out
  = [mkRequest PUT "http://localhost:11923/pages/example.com%252Fa%2520b" None]
  ∧ ¬ (∃ body, map req_body (requests out) = [Some body]).
Proof.
  split; [vm_compute; reflexivity |].
  intros [body Hbody]. vm_compute in Hbody. discriminate.
Qed.

Lemma storeObject_key_doubly_encoded_sample :
  bo_object sample_object ≠ JUndefined
  ∧ requests (storeObject (H := sample_platform server_created)
                sample_backend sample_object sample_world)
    = [mkRequest PUT "http://localhost:11923/pages/example.com%252Fa%2520b"
         (Some (sample_stringify (JStr "page")))].
Proof.
  assert (bo_object sample_object ≠ JUndefined) as Hdef by discriminate.
  split; [exact Hdef |].
  destruct (storeObject_key_doubly_encoded
              (H := sample_platform server_created)
              sample_backend sample_object sample_world)
    as (_ & Hrequests & _ & _ & Hbody & _).
  rewrite Hrequests. specialize (Hbody Hdef). simpl in Hbody.
  vm_compute. reflexivity.
Defined.

Lemma null_payload_classified_as_is_sample :
  object deleted_page_change = None
  ∧ _prepareBackupChangeForStorage (H := sample_platform server_created)
      deleted_page_change sample_world = Returned [] sample_world.
Proof.
  split; [reflexivity |].
  apply (null_payload_classified_as_is (H := sample_platform server_created)
           deleted_page_change sample_world).
  reflexivity.
Defined.

Lemma sample_changes_allocated :
  Forall (allocated (heap sample_world))
    [page_change; favIcon_change; deleted_page_change; broken_page_change;
     page_change].
Proof.
  repeat constructor; unfold allocated; simpl; eexists; vm_compute; reflexivity.
Defined.

Lemma changes_returned_in_place_sample :
  Forall (allocated (heap sample_world))
    [page_change; favIcon_change; deleted_page_change; broken_page_change;
     page_change]
  ∧ ∃ images w',
      separateDataFromImageChanges (H := sample_platform server_created)
        [page_change; favIcon_change; deleted_page_change; broken_page_change;
         page_change] sample_world
      = Returned ([page_change; favIcon_change; deleted_page_change;
                   broken_page_change; page_change], images) w'
      ∧ classified_from sample_world w'.
Proof.
  split; [exact sample_changes_allocated |].
  apply (changes_returned_in_place (H := sample_platform server_created)).
  exact sample_changes_allocated.
Defined.

Lemma favIcon_encoded_in_place_sample :
  (collection favIcon_change = "favIcons"
   ∧ object favIcon_change = Some 2%positive
   ∧ heap sample_world !! 2%positive = Some favIcon_payload
   ∧ not_nullish (field favIcon_payload "favIcon") = true)
  ∧ ∃ w' p',
      _prepareBackupChangeForStorage (H := sample_platform server_created)
        favIcon_change sample_world = Returned [] w'
      ∧ heap w' !! 2%positive = Some p'
      ∧ field p' "favIcon" = JStr "data:image/png;base64,AAABAAEAEBA=".
Proof.
  assert (heap sample_world !! 2%positive = Some favIcon_payload) as Hp
    by (vm_compute; reflexivity).
  assert (not_nullish (field favIcon_payload "favIcon") = true) as Hs
    by (vm_compute; reflexivity).
  split; [by repeat split |].
  destruct (favIcon_encoded_in_place (H := sample_platform server_created)
              favIcon_change 2%positive favIcon_payload sample_world
              eq_refl eq_refl Hp Hs) as (w' & p' & E & Hp' & Hv & _).
  exists w', p'. repeat split; [exact E | exact Hp' |].
  rewrite Hv. vm_compute. reflexivity.
Defined.

Lemma screenshot_extracted_and_cleared_sample :
  (collection page_change = "pages"
   ∧ object page_change = Some 1%positive
   ∧ heap sample_world !! 1%positive = Some page_payload
   ∧ not_nullish (field page_payload "screenshot") = true)
  ∧ ∃ w',
      separateDataFromImageChanges (H := sample_platform server_created)
        [page_change] sample_world
      = Returned ([page_change],
                  [mkImage "pages" (JStr "example.com/a") "screenshot"
                     (JStr "data:image/png;base64,iVBORw0KGgo=")]) w'
      ∧ screenshot_cleared (heap w') 1%positive.
Proof.
  assert (heap sample_world !! 1%positive = Some page_payload) as Hp
    by (vm_compute; reflexivity).
  assert (not_nullish (field page_payload "screenshot") = true) as Hs
    by (vm_compute; reflexivity).
  split; [by repeat split |].
  destruct (screenshot_extracted_and_cleared
              (H := sample_platform server_created)
              page_change 1%positive page_payload sample_world
              eq_refl eq_refl Hp Hs) as [(es & w' & _ & _ & Hcl & _ & E) _].
  exists w'. split; [exact E | exact Hcl].
Defined.

Lemma listObjects_by_status_sample :
  server_missing (sent sample_world)
    (mkRequest GET (url sample_backend +:+ "/" +:+ "change-sets") None)
  = Resolved (mkResponse 404 "Not Found")
  ∧ returned_value
      (listObjects (H := sample_platform server_missing)
         sample_backend "change-sets" sample_world) = Some [].
Proof.
  split; [reflexivity |].
  destruct (listObjects_by_status (H := sample_platform server_missing)
              sample_backend "change-sets" sample_world
              (mkResponse 404 "Not Found") eq_refl) as (E & _ & _).
  rewrite (E eq_refl). reflexivity.
Defined.

Lemma parse_listing_line_by_line_sample :
  (free_of newline (listing_line "1234") = true
   ∧ exec_href (listing_line "1234") = Some "1234")
  ∧ parse_listing (listing_line "1234" +:+ String newline (listing_line "1234"))
    = ["1234"; "1234"].
Proof.
  assert (free_of newline (listing_line "1234") = true) as Hfree
    by (vm_compute; reflexivity).
  assert (exec_href (listing_line "1234") = Some "1234") as Hkey
    by (vm_compute; reflexivity).
  split; [by split |].
  destruct (parse_listing_line_by_line "") as (_ & _ & _ & _ & _ & _ & Htwice).
  exact (Htwice (listing_line "1234") "1234" Hfree Hkey).
Defined.

Lemma backupChanges_writes_sample :
  Forall (allocated (heap sample_world))
    [page_change; favIcon_change; deleted_page_change; broken_page_change;
     page_change]
  ∧ ∃ images w1,
      separateDataFromImageChanges (H := sample_platform server_created)
        [page_change; favIcon_change; deleted_page_change; broken_page_change;
         page_change] sample_world
      = Returned ([page_change; favIcon_change; deleted_page_change;
                   broken_page_change; page_change], images) w1
      ∧ (map req_url
           (requests (backupChanges (H := sample_platform server_created)
              sample_backend
              [page_change; favIcon_change; deleted_page_change;
               broken_page_change; page_change] 7 true sample_world))
         = ["http://localhost:11923/change-sets/1541203200123";
            "http://localhost:11923/images/1541203200123"]
         ↔ true = true ∧ images ≠ []).
Proof.
  split; [exact sample_changes_allocated |].
  destruct (backupChanges_writes (H := sample_platform server_created)
              sample_backend
              [page_change; favIcon_change; deleted_page_change;
               broken_page_change; page_change] 7 true sample_world
              sample_changes_allocated)
    as (images & w1 & E & _ & _ & Hok).
  exists images, w1. split; [exact E |].
  destruct (Hok (mkResponse 201 "") eq_refl eq_refl) as [[Hto Hfrom] _].
  split.
  - intros _. apply Hto. vm_compute in E. injection E as <- _.
    vm_compute. reflexivity.
  - intros _. vm_compute. reflexivity.
Defined.

(** ** More on classification *)

Section classification_steps.
Context `{Platform}.

(** A record that is not of "pages" or "favIcons", or has no payload, or has
    a null or missing binary field, is skipped. *)
Lemma prepare_skipped (change : ObjectChange) (w : World) :
  (collection change = "pages" →
   ∀ o, object change = Some o →
        ∃ p, heap w !! o = Some p ∧ not_nullish (field p "screenshot") = false) →
  (collection change = "favIcons" →
   ∀ o, object change = Some o →
        ∃ p, heap w !! o = Some p ∧ not_nullish (field p "favIcon") = false) →
  _prepareBackupChangeForStorage change w = Returned [] w.
Proof.
  intros Hpages Hfav.
  unfold _prepareBackupChangeForStorage, prepare_screenshot, prepare_favIcon.
  destruct (String.eqb_spec (collection change) "pages") as [Ep | _].
  - rewrite Ep. simpl. destruct (object change) as [o |]; [| done].
    destruct (Hpages Ep o eq_refl) as (p & Hp & Hs). run. by rewrite Hp, Hs.
  - run. destruct (String.eqb_spec (collection change) "favIcons") as [Ef | _];
      [| done].
    destruct (object change) as [o |]; [| done].
    destruct (Hfav Ef o eq_refl) as (p & Hp & Hs). run. by rewrite Hp, Hs.
Qed.

Lemma prepare_step_spec (change : ObjectChange) (w : World) :
  allocated (heap w) change →
  ∃ entries w', _prepareBackupChangeForStorage change w = Returned entries w'
                ∧ prepare_step change w entries w'.
Proof.
  intros Ha. unfold allocated in Ha.
  destruct (object change) as [o |] eqn:Ho.
  2: { exists [], w. split; [by apply prepare_null_object |].
       constructor; intros _ o Ho'; congruence. }
  destruct Ha as [p Hp].
  assert (∀ f, not_nullish (field p f) = false →
            ∀ o', object change = Some o' →
              ∃ p', heap w !! o' = Some p' ∧ not_nullish (field p' f) = false)
    as Hnull.
  { intros f Hf o' Ho'. rewrite Ho in Ho'. injection Ho' as <-. eauto. }
  destruct (String.eqb_spec (collection change) "pages") as [Ep | Np].
  { assert (no_favIcon (heap w) change) as Hnf.
    { intros Ef. rewrite Ef in Ep. discriminate. }
    destruct (not_nullish (field p "screenshot")) eqn:Hs.
    - rewrite (prepare_pages change o p w Ep Ho Hp Hs).
      destruct (encodeBlob (field p "screenshot")) as [enc | e] eqn:Henc;
        eexists _, _; (split; [done |]).
      + by eapply step_screenshot.
      + by eapply step_screenshot_failed.
    - assert (no_screenshot (heap w) change) as Hns by (intros _; eauto).
      exists [], w. split; [by apply prepare_skipped | by constructor]. }
  assert (no_screenshot (heap w) change) as Hns by (intros Ep; done).
  destruct (String.eqb_spec (collection change) "favIcons") as [Ef | Nf].
  { destruct (not_nullish (field p "favIcon")) eqn:Hs.
    - rewrite (prepare_favIcons change o p w Ef Ho Hp Hs).
      destruct (encodeBlob (field p "favIcon")) as [enc | e] eqn:Henc;
        eexists _, _; (split; [done |]).
      + by eapply step_favIcon.
      + by eapply step_favIcon_failed.
    - assert (no_favIcon (heap w) change) as Hnf by (intros _; eauto).
      exists [], w. split; [by apply prepare_skipped | by constructor]. }
  assert (no_favIcon (heap w) change) as Hnf by (intros Ef; done).
  exists [], w. split; [by apply prepare_skipped | by constructor].
Qed.

Lemma prepare_step_classified (change : ObjectChange) (w w' : World)
    (entries : list (string * JsValue)) :
  prepare_step change w entries w' → classified_from w w'.
Proof.
  intros [].
  - apply classified_from_refl.
  - apply classified_set_field; auto.
  - eapply classified_from_trans; [apply (classified_capture w e) |].
    apply (classified_set_field (reported e w)); auto.
  - apply classified_set_field; auto.
  - apply classified_capture.
Qed.

(** The accumulator only grows: the loop from [acc] is the loop from the
    empty list with [acc] put in front. *)
Lemma separate_loop_acc (changes : list ObjectChange) :
  ∀ (acc : list ExtractedImage) (w : World),
    separate_loop changes acc w =
      match separate_loop changes [] w with
      | Returned images w' => Returned (acc ++ images) w'
      | Thrown e w' => Thrown e w'
      | Dangling => Dangling
      end.
Proof.
  induction changes as [| c rest IH]; intros acc w; simpl.
  - run. by rewrite app_nil_r.
  - run. destruct (_prepareBackupChangeForStorage c w) as [es w1 | |]; try done.
    rewrite (IH (acc ++ images_of_entries c es)).
    rewrite (IH (images_of_entries c es)).
    destruct (separate_loop rest [] w1); try done. by rewrite app_assoc.
Qed.

(** Induction along the loop: a property of runs that holds of the empty
    batch and is kept by one more record in front holds of every batch. *)
Lemma separate_loop_steps
    (P : list ObjectChange → World → list ExtractedImage → World → Prop) :
  (∀ w, P [] w [] w) →
  (∀ c rest w entries w1 images w2,
     allocated (heap w) c → prepare_step c w entries w1 →
     classified_from w w1 → classified_from w1 w2 →
     P rest w1 images w2 →
     P (c :: rest) w (images_of_entries c entries ++ images) w2) →
  ∀ changes w,
    Forall (allocated (heap w)) changes →
    ∃ images w',
      separateDataFromImageChanges changes w = Returned (changes, images) w'
      ∧ classified_from w w' ∧ P changes w images w'.
Proof.
  intros Hnil Hcons changes.
  assert (∀ w, Forall (allocated (heap w)) changes →
               ∃ images w', separate_loop changes [] w = Returned images w'
                            ∧ classified_from w w' ∧ P changes w images w')
    as Hloop.
  { induction changes as [| c rest IH]; intros w Hall.
    - exists [], w. split; [done |].
      split; [apply classified_from_refl | apply Hnil].
    - apply Forall_cons in Hall as [Ha Hrest].
      destruct (prepare_step_spec c w Ha) as (es & w1 & E1 & S1).
      pose proof (prepare_step_classified c w w1 es S1) as C1.
      destruct (IH w1) as (imgs & w2 & E2 & C2 & HP).
      { eapply Forall_impl; [exact Hrest |].
        intros c' Hc'. eapply allocated_classified; eauto. }
      exists (images_of_entries c es ++ imgs), w2. split.
      { simpl. run. rewrite E1. simpl. rewrite separate_loop_acc.
        by rewrite E2. }
      split; [eapply classified_from_trans; eauto | eauto]. }
  intros w Hall. destruct (Hloop w Hall) as (imgs & w' & E & C & HP).
  exists imgs, w'. split; [| done].
  unfold separateDataFromImageChanges. run. by rewrite E.
Qed.

Lemma nullish_classified (w w' : World) (o : loc) (p : Payload) :
  classified_from w w' → heap w !! o = Some p →
  not_nullish (field p "screenshot") = false →
  ∃ p', heap w' !! o = Some p' ∧ not_nullish (field p' "screenshot") = false.
Proof.
  intros (Hd & Hb & _) Hp Hs.
  assert (is_Some (heap w' !! o)) as [p' Hp'].
  { apply elem_of_dom. rewrite Hd. apply elem_of_dom. eauto. }
  exists p'. split; [done |].
  destruct (Hb o p p' Hp Hp') as [_ [-> | ->]]; done.
Qed.

Lemma no_screenshot_classified (w w' : World) (change : ObjectChange) :
  classified_from w w' → no_screenshot (heap w) change →
  no_screenshot (heap w') change.
Proof.
  intros C Hns Ep o Ho. destruct (Hns Ep o Ho) as (p & Hp & Hs).
  by eapply nullish_classified.
Qed.

(** After its own turn a record of "pages" has no screenshot. *)
Lemma prepare_step_no_screenshot (change : ObjectChange) (w w' : World)
    (entries : list (string * JsValue)) :
  prepare_step change w entries w' → no_screenshot (heap w') change.
Proof.
  intros [Hns _ | o p enc Ep Ho Hp _ _ | o p e Ep Ho Hp _ _
          | o p enc Ef _ _ _ _ | o p e Ef _ _ _ _].
  - exact Hns.
  - intros _ o' Ho'. rewrite Ho in Ho'. injection Ho' as <-.
    exists (<["screenshot" := JUndefined]> p). simpl.
    rewrite lookup_insert_eq. split; [done |].
    unfold field. by rewrite lookup_insert_eq.
  - intros _ o' Ho'. rewrite Ho in Ho'. injection Ho' as <-.
    exists (<["screenshot" := JUndefined]> p). simpl.
    rewrite lookup_insert_eq. split; [done |].
    unfold field. by rewrite lookup_insert_eq.
  - intros Ep. rewrite Ep in Ef. discriminate.
  - intros Ep. rewrite Ep in Ef. discriminate.
Qed.

(** A step on a record without screenshot returns no entry. *)
Lemma prepare_step_no_entry (change : ObjectChange) (w w' : World)
    (entries : list (string * JsValue)) :
  prepare_step change w entries w' → no_screenshot (heap w) change →
  entries = [].
Proof.
  intros [| o p enc Ep Ho Hp Hs _ | | |] Hns; try done.
  destruct (Hns Ep o Ho) as (p' & Hp' & Hs'). congruence.
Qed.

Lemma separate_loop_app (xs ys : list ObjectChange) :
  ∀ (acc : list ExtractedImage) (w : World),
    separate_loop (xs ++ ys) acc w =
      match separate_loop xs acc w with
      | Returned images w1 => separate_loop ys images w1
      | Thrown e w1 => Thrown e w1
      | Dangling => Dangling
      end.
Proof.
  induction xs as [| c xs IH]; intros acc w; [done |].
  simpl. run.
  destruct (_prepareBackupChangeForStorage c w); [apply IH | done | done].
Qed.

(** A batch in which no record has anything to encode comes back as it is,
    in the world it was handed over in. *)
Lemma separate_skips (changes : list ObjectChange) (w : World) :
  Forall (λ c, no_screenshot (heap w) c ∧ no_favIcon (heap w) c) changes →
  separateDataFromImageChanges changes w = Returned (changes, []) w.
Proof.
  intros Hall.
  assert (∀ acc, separate_loop changes acc w = Returned acc w) as Hloop.
  { induction changes as [| c rest IH]; intros acc; [done |].
    apply Forall_cons in Hall as [[Hns Hnf] Hrest].
    simpl. run. rewrite (prepare_skipped c w Hns Hnf). simpl.
    rewrite app_nil_r. by apply IH. }
  unfold separateDataFromImageChanges. run. by rewrite Hloop.
Qed.

(** When classification is over, no record of "pages" has a screenshot. *)
Lemma separate_leaves_no_screenshot (changes : list ObjectChange) (w : World) :
  Forall (allocated (heap w)) changes →
  ∃ images w',
    separateDataFromImageChanges changes w = Returned (changes, images) w'
    ∧ classified_from w w'
    ∧ Forall (no_screenshot (heap w')) changes.
Proof.
  apply (separate_loop_steps
           (λ changes _ _ w', Forall (no_screenshot (heap w')) changes)).
  - intros w0. constructor.
  - intros c rest w0 es w1 imgs w2 _ Hstep _ C2 Hrest.
    constructor; [| exact Hrest].
    eapply no_screenshot_classified; [exact C2 |].
    by eapply prepare_step_no_screenshot.
Qed.

(** A batch without screenshots yields no image. *)
Lemma separate_without_screenshots (changes : list ObjectChange) (w : World) :
  Forall (allocated (heap w)) changes →
  Forall (no_screenshot (heap w)) changes →
  ∃ w', separateDataFromImageChanges changes w = Returned (changes, []) w'
        ∧ classified_from w w'.
Proof.
  intros Hall Hns.
  destruct (separate_loop_steps
              (λ changes w images _,
                 Forall (no_screenshot (heap w)) changes → images = []))
    with (changes := changes) (w := w) as (imgs & w' & E & C & Himgs).
  - done.
  - intros c rest w0 es w1 imgs w2 _ Hstep C1 _ IH Hcons.
    apply Forall_cons in Hcons as [Hc Hrest].
    rewrite (prepare_step_no_entry c w0 w1 es Hstep Hc). simpl.
    apply IH. eapply Forall_impl; [exact Hrest |].
    intros c' Hc'. by eapply no_screenshot_classified.
  - exact Hall.
  - exists w'. rewrite (Himgs Hns) in E. done.
Qed.
End classification_steps.

(** ** Properties of classification *)

Section classification_properties.
Context `{Platform}.

(** X1: a batch with no record of "pages" or "favIcons" passes through: the
    same records come back with no image, and the world is the one the call
    started in, whatever the heap holds. *)
Theorem other_collections_pass_through (changes : list ObjectChange)
    (w : World) :
  Forall (λ c, ¬ binary_collection c) changes →
  separateDataFromImageChanges changes w = Returned (changes, []) w.
Proof.
  intros Hall. apply separate_skips.
  eapply Forall_impl; [exact Hall |].
  intros c Hc. split; intros E; destruct Hc; [by left | by right].
Qed.

(** X2: records whose binary field is null or was never set (screenshot for
    "pages", favIcon for "favIcons") are skipped like the others: nothing is
    encoded, reported, written or extracted. *)
Theorem nothing_to_encode_nothing_done (changes : list ObjectChange)
    (w : World) :
  Forall (λ c, no_screenshot (heap w) c ∧ no_favIcon (heap w) c) changes →
  separateDataFromImageChanges changes w = Returned (changes, []) w
  ∧ Forall (λ c, _prepareBackupChangeForStorage c w = Returned [] w) changes.
Proof.
  intros Hall. split; [by apply separate_skips |].
  eapply Forall_impl; [exact Hall |].
  intros c [Hns Hnf]. by apply prepare_skipped.
Qed.

(** X3: every image extracted is of type "screenshot" and of collection
    "pages", and the images follow the order of the "pages" records of the
    batch, at most one for each. *)
Theorem images_come_from_pages (changes : list ObjectChange) (w : World) :
  Forall (allocated (heap w)) changes →
  ∃ images w',
    separateDataFromImageChanges changes w = Returned (changes, images) w'
    ∧ Forall (λ i, img_type i = "screenshot" ∧ img_collection i = "pages")
             images
    ∧ map img_pk images
        `sublist_of`
      map objectPk (filter (λ c, collection c = "pages") changes).
Proof.
  intros Hall.
  destruct (separate_loop_steps
    (λ changes _ images _,
       Forall (λ i, img_type i = "screenshot" ∧ img_collection i = "pages")
              images
       ∧ map img_pk images
           `sublist_of`
         map objectPk (filter (λ c, collection c = "pages") changes)))
    with (changes := changes) (w := w) as (imgs & w' & E & _ & HP).
  - intros _. split; [constructor | done].
  - intros c rest w0 es w1 imgs w2 _ Hstep _ _ [Hall' Hsub].
    assert (map img_pk imgs `sublist_of`
            map objectPk (filter (λ c, collection c = "pages") (c :: rest)))
      as Hskip.
    { rewrite filter_cons. destruct (decide (collection c = "pages"));
        [by apply sublist_cons | done]. }
    destruct Hstep as [| o p enc Ep | | |]; simpl; try done.
    split; [by constructor |].
    rewrite filter_cons_True by done. by apply sublist_skip.
  - exact Hall.
  - by exists imgs, w'.
Qed.

(** X4: classifying two batches one after the other is classifying their
    concatenation: the images are those of the first followed by those of
    the second, and a failure of either is the failure of the whole. *)
Theorem classification_of_concatenation (xs ys : list ObjectChange)
    (w : World) :
  separateDataFromImageChanges (xs ++ ys) w =
    match separateDataFromImageChanges xs w with
    | Returned first w1 =>
        match separateDataFromImageChanges ys w1 with
        | Returned second w2 =>
            Returned (xs ++ ys, snd first ++ snd second) w2
        | Thrown e w2 => Thrown e w2
        | Dangling => Dangling
        end
    | Thrown e w1 => Thrown e w1
    | Dangling => Dangling
    end.
Proof.
  unfold separateDataFromImageChanges. run.
  rewrite separate_loop_app.
  destruct (separate_loop xs [] w) as [ix w1 | |]; try done. simpl.
  rewrite separate_loop_acc.
  by destruct (separate_loop ys [] w1).
Qed.

(** X5: classification is destructive for screenshots: once a batch has
    been classified, no record of "pages" in it has a screenshot, and
    classifying the same batch again extracts no image. *)
Theorem second_classification_extracts_nothing (changes : list ObjectChange)
    (w : World) :
  Forall (allocated (heap w)) changes →
  ∃ images w1,
    separateDataFromImageChanges changes w = Returned (changes, images) w1
    ∧ Forall (no_screenshot (heap w1)) changes
    ∧ ∃ w2, separateDataFromImageChanges changes w1
            = Returned (changes, []) w2.
Proof.
  intros Hall.
  destruct (separate_leaves_no_screenshot changes w Hall)
    as (imgs & w1 & E & C & Hns).
  exists imgs, w1. split; [exact E |]. split; [exact Hns |].
  destruct (separate_without_screenshots changes w1) as (w2 & E2 & _);
    [| exact Hns | by exists w2].
  eapply Forall_impl; [exact Hall |].
  intros c Hc. by eapply allocated_classified.
Qed.

(** X6: each record gives rise to at most one image or one report to Raven,
    never both: the images extracted and the errors reported during a run
    are together no more than the records of the batch. *)
Theorem one_image_or_report_per_record (changes : list ObjectChange)
    (w : World) :
  Forall (allocated (heap w)) changes →
  ∃ images w',
    separateDataFromImageChanges changes w = Returned (changes, images) w'
    ∧ (length images + length (captured w')
       ≤ length (captured w) + length changes)%nat.
Proof.
  intros Hall.
  destruct (separate_loop_steps
    (λ changes w images w',
       (length images + length (captured w')
        ≤ length (captured w) + length changes)%nat))
    with (changes := changes) (w := w) as (imgs & w' & E & _ & HP).
  - intros w0. simpl. lia.
  - intros c rest w0 es w1 imgs w2 _ Hstep _ _ IH.
    destruct Hstep; simpl in *; rewrite ?length_app in *; simpl in *; lia.
  - exact Hall.
  - by exists imgs, w'.
Qed.

(** X7: the favIcon of a record is encoded each time the record is
    classified: a record listed twice (or a batch classified twice) ends with
    the encoding of the encoding in its favIcon field. *)
Theorem favIcon_encoded_again (change : ObjectChange) (o : loc)
    (p : Payload) (w : World) (once twice : JsValue) :
  collection change = "favIcons" → object change = Some o →
  heap w !! o = Some p → not_nullish (field p "favIcon") = true →
  encodeBlob (field p "favIcon") = inl once → not_nullish once = true →
  encodeBlob once = inl twice →
  ∃ w' p',
    separateDataFromImageChanges [change; change] w
    = Returned ([change; change], []) w'
    ∧ heap w' !! o = Some p' ∧ field p' "favIcon" = twice.
Proof.
  intros Ef Ho Hp Hs Hon Hs1 Htw.
  pose proof (prepare_favIcons change o p w Ef Ho Hp Hs) as E1.
  rewrite Hon in E1.
  set (w1 := set_heap (<[o := <["favIcon" := once]> p]> (heap w)) w) in *.
  assert (heap w1 !! o = Some (<["favIcon" := once]> p)) as Hp1
    by (simpl; apply lookup_insert_eq).
  assert (field (<["favIcon" := once]> p) "favIcon" = once) as Hf1
    by (unfold field; by rewrite lookup_insert_eq).
  pose proof (prepare_favIcons change o _ w1 Ef Ho Hp1) as E2.
  rewrite Hf1, Htw in E2. specialize (E2 Hs1).
  eexists _, _. split; [| split].
  - unfold separateDataFromImageChanges. simpl. run. rewrite E1. simpl.
    rewrite E2. reflexivity.
  - simpl. apply lookup_insert_eq.
  - unfold field. by rewrite lookup_insert_eq.
Qed.

(** X8: classification touches only payloads of records of "pages" and
    "favIcons": an object of the heap that no such record of the batch
    refers to is the same after the run. *)
Theorem unreferenced_payloads_untouched (changes : list ObjectChange)
    (w : World) :
  Forall (allocated (heap w)) changes →
  ∃ images w',
    separateDataFromImageChanges changes w = Returned (changes, images) w'
    ∧ ∀ l, (∀ c, c ∈ changes → binary_collection c → object c ≠ Some l) →
           heap w' !! l = heap w !! l.
Proof.
  intros Hall.
  destruct (separate_loop_steps
    (λ changes w _ w',
       ∀ l, (∀ c, c ∈ changes → binary_collection c → object c ≠ Some l) →
            heap w' !! l = heap w !! l))
    with (changes := changes) (w := w) as (imgs & w' & E & _ & HP).
  - done.
  - intros c rest w0 es w1 imgs w2 _ Hstep _ _ IH l Hl.
    rewrite IH by (intros c' Hin; apply Hl; by right).
    assert (∀ o, binary_collection c → object c = Some o → o ≠ l) as Hne.
    { intros o Hb Ho ->. by apply (Hl c (list_elem_of_here _ _) Hb). }
    destruct Hstep as [| o p enc Ep Ho | o p e Ep Ho | o p enc Ef Ho |];
      simpl; try done; apply lookup_insert_ne, Hne; try done;
      by (left + right).
  - exact Hall.
  - by exists imgs, w'.
Qed.
End classification_properties.

(** ** More on strings, keys and listings *)

Section more_string_facts.
#[local] Arguments String.append !_ _ / : simpl nomatch.

Lemma append_cancel_l (s a b : string) : s +:+ a = s +:+ b → a = b.
Proof. induction s as [| c s IH]; simpl; [done |]. intros [= E]. auto. Qed.

Lemma free_of_app (c : ascii) (a b : string) :
  free_of c (a +:+ b) = free_of c a && free_of c b.
Proof.
  induction a as [| x a IH]; simpl; [done |]. rewrite IH. by rewrite andb_assoc.
Qed.

Lemma free_of_separator (c : ascii) (a b : string) :
  free_of c (a +:+ String c b) = false.
Proof.
  rewrite free_of_app. simpl. rewrite Ascii.eqb_refl. simpl.
  apply andb_false_r.
Qed.

(** A path is cut at its last slash in one way only. *)
Lemma split_at_last_slash (a b k1 k2 : string) :
  free_of "/" k1 = true → free_of "/" k2 = true →
  a +:+ String "/" k1 = b +:+ String "/" k2 → a = b ∧ k1 = k2.
Proof.
  intros H1 H2. revert b.
  induction a as [| c a IH]; intros [| c' b]; simpl.
  - by intros [= ->].
  - intros [= <- ->]. by rewrite free_of_separator in H1.
  - intros [= -> <-]. by rewrite free_of_separator in H2.
  - intros [= <- E]. destruct (IH b E) as [-> ->]. done.
Qed.

Lemma percent_decode_encode (c : ascii) :
  percent_decode (percent_encode c) = c.
Proof. destruct c as [[] [] [] [] [] [] [] []]; vm_compute; reflexivity. Qed.

Lemma percent_encode_inj (c c' : ascii) :
  percent_encode c = percent_encode c' → c = c'.
Proof.
  intros E. rewrite <- (percent_decode_encode c), E.
  apply percent_decode_encode.
Qed.

Lemma encodeURIComponent_cons (c : ascii) (s : string) :
  encodeURIComponent (String c s) =
    (if uri_unreserved c then String c "" else percent_encode c)
      +:+ encodeURIComponent s.
Proof. done. Qed.

Lemma percent_encode_shape (c : ascii) :
  ∃ high low, percent_encode c = String "%" (String high (String low "")).
Proof. unfold percent_encode. eauto. Qed.

Lemma encodeURIComponent_inj (s t : string) :
  encodeURIComponent s = encodeURIComponent t → s = t.
Proof.
  revert t. induction s as [| c s IH]; intros [| c' t].
  - done.
  - rewrite encodeURIComponent_cons.
    destruct (percent_encode_shape c') as (h & l & ->).
    destruct (uri_unreserved c'); simpl; discriminate.
  - rewrite encodeURIComponent_cons.
    destruct (percent_encode_shape c) as (h & l & ->).
    destruct (uri_unreserved c); simpl; discriminate.
  - rewrite !encodeURIComponent_cons.
    destruct (uri_unreserved c) eqn:Uc, (uri_unreserved c') eqn:Uc'.
    + simpl. intros [= <- E]. by rewrite (IH t E).
    + destruct (percent_encode_shape c') as (h & l & ->). simpl.
      intros [= -> _]. vm_compute in Uc. discriminate.
    + destruct (percent_encode_shape c) as (h & l & ->). simpl.
      intros [= <- _]. vm_compute in Uc'. discriminate.
    + destruct (percent_encode_shape c) as (h & l & Ec).
      destruct (percent_encode_shape c') as (h' & l' & Ec').
      rewrite Ec, Ec'. simpl. intros [= -> -> E].
      rewrite (IH t E). f_equal. apply percent_encode_inj. congruence.
Qed.

Lemma encodeURIComponent_unreserved (s : string) :
  unreserved s = true → encodeURIComponent s = s.
Proof.
  unfold unreserved. induction s as [| c s IH]; simpl; [done |].
  intros Hs. apply andb_true_iff in Hs as [Hc Hs].
  rewrite Hc. simpl. by rewrite IH.
Qed.

Lemma split_lines_newline (first rest : string) :
  split_lines (first +:+ String newline rest)
  = split_lines first ++ split_lines rest.
Proof.
  induction first as [| c first IH]; simpl; [done |].
  destruct (Ascii.eqb c newline); [by rewrite IH |].
  rewrite IH. pose proof (split_lines_not_nil first) as Hne.
  by destruct (split_lines first).
Qed.

Lemma strip_prefix_other_head (c : ascii) (s : string) :
  c ≠ "h"%char → match_href_here (String c s) = None.
Proof.
  intros Hc. unfold match_href_here.
  change href_open with (String "h" ("ref=" +:+ String dquote "")).
  cbn [strip_prefix].
  destruct (Ascii.eqb_spec "h" c) as [E | _]; [by destruct Hc | done].
Qed.

(** The leftmost token is the one found when no [h] comes before it. *)
Lemma exec_href_leftmost (before v after : string) :
  free_of "h" before = true → v ≠ EmptyString → free_of dquote v = true →
  exec_href (before +:+ href_open +:+ v +:+ String dquote after) = Some v.
Proof.
  intros Hb Hv Hq. induction before as [| c before IH].
  - apply exec_href_here, match_href_here_Some. eauto.
  - simpl in Hb. apply andb_true_iff in Hb as [Hc Hb].
    apply negb_true_iff, Ascii.eqb_neq in Hc.
    change (String c before +:+ ?x) with (String c (before +:+ x)).
    rewrite exec_href_unfold, strip_prefix_other_head by done. by apply IH.
Qed.

Lemma exec_href_listing_line (key : string) :
  key ≠ EmptyString → free_of dquote key = true →
  exec_href (listing_line key) = Some key.
Proof.
  intros Hk Hq.
  assert (listing_line key
          = "<a " +:+ href_open +:+ key
              +:+ String dquote (">" +:+ key +:+ "</a>")) as -> by reflexivity.
  by apply (exec_href_leftmost "<a " key).
Qed.
End more_string_facts.

(** ** Properties of the backend *)

Section backend_properties.
Context `{Platform}.

(** X9: when blobs are not to be stored, or no record of "pages" in the
    batch has a screenshot, [backupChanges] makes exactly one request, the
    change-sets write, whatever the server answers. *)
Theorem images_not_written_without_need (this : SimpleHttpBackend)
    (changes : list ObjectChange) (version : Z) (storeBlobs : bool)
    (w : World) :
  Forall (allocated (heap w)) changes →
  storeBlobs = false ∨ Forall (no_screenshot (heap w)) changes →
  ∃ images w1,
    separateDataFromImageChanges changes w = Returned (changes, images) w1
    ∧ requests (backupChanges this changes version storeBlobs w)
      = sent w ++
        [mkRequest PUT
           (url this +:+ "/" +:+ "change-sets/" +:+ pretty (clock w))
           (Some (JSON_stringify_indent4
                    (ChangeSetDocument version changes (heap w1))))].
Proof.
  intros Hall Hneed.
  destruct (separate_classified changes w Hall)
    as (images & w1 & E & (_ & _ & Hsent & Hclock & _)).
  exists images, w1. split; [exact E |].
  assert (shouldWriteImages images storeBlobs = false) as Hno.
  { destruct Hneed as [-> | Hns]; [done |].
    destruct (separate_without_screenshots changes w Hall Hns) as (w' & E' & _).
    rewrite E in E'. injection E' as -> _.
    unfold shouldWriteImages. simpl. apply andb_false_r. }
  rewrite (backupChanges_after_classification this changes version storeBlobs
             w w1 images E), Hno, Hclock, Hsent.
  destruct (remote _ _); unfold requests; simpl; by rewrite Hsent.
Qed.

(** X10: the changes object is written from the heap as classification
    left it: in the document serialised for change-sets no record of
    "pages" has a screenshot. *)
Theorem change_sets_written_without_screenshots (this : SimpleHttpBackend)
    (changes : list ObjectChange) (version : Z) (storeBlobs : bool)
    (w : World) :
  Forall (allocated (heap w)) changes →
  ∃ h1 later,
    requests (backupChanges this changes version storeBlobs w)
    = sent w ++
      mkRequest PUT
        (url this +:+ "/" +:+ "change-sets/" +:+ pretty (clock w))
        (Some (JSON_stringify_indent4 (ChangeSetDocument version changes h1)))
      :: later
    ∧ Forall (no_screenshot h1) changes.
Proof.
  intros Hall.
  destruct (separate_leaves_no_screenshot changes w Hall)
    as (images & w1 & E & (_ & _ & Hsent & Hclock & _) & Hns).
  rewrite (backupChanges_after_classification this changes version storeBlobs
             w w1 images E), Hclock.
  destruct (remote _ _) as [r | e].
  - destruct (shouldWriteImages images storeBlobs).
    + eexists (heap w1), [_]. split; [| exact Hns].
      rewrite writeToPath_requests. simpl. rewrite Hsent.
      by rewrite <- app_assoc.
    + exists (heap w1), []. split; [| exact Hns].
      unfold requests. simpl. by rewrite Hsent.
  - exists (heap w1), []. split; [| exact Hns].
    unfold requests. simpl. by rewrite Hsent.
Qed.

(** X11: the URL that [storeObject] writes to tells the object: on one
    backend, two objects are written to the same URL only if they have the
    same collection and the same primary key. *)
Theorem storeObject_url_tells_object (this : SimpleHttpBackend)
    (first second : BackupObject) (w1 w2 : World) (r1 r2 : Request) :
  last (requests (storeObject this first w1)) = Some r1 →
  last (requests (storeObject this second w2)) = Some r2 →
  req_url r1 = req_url r2 →
  bo_collection first = bo_collection second ∧ bo_pk first = bo_pk second.
Proof.
  unfold storeObject. rewrite !writeToPath_requests, !last_snoc.
  intros [= <-] [= <-]. simpl. intros E.
  apply append_cancel_l in E. injection E as E.
  destruct (split_at_last_slash
              (bo_collection first) (bo_collection second)
              (encodeURIComponent (encodeURIComponent (bo_pk first)))
              (encodeURIComponent (encodeURIComponent (bo_pk second))))
    as [Ec Ek]; [apply segment_safe_no_slash, encodeURIComponent_safe .. | |].
  - exact E.
  - split; [exact Ec |]. by do 2 apply encodeURIComponent_inj.
Qed.

(** X12: [listObjects] makes one request, a GET of the collection without
    body, and no write, whatever comes back; when no response is obtained it
    fails with the error of [fetch]. *)
Theorem listObjects_reads_once (this : SimpleHttpBackend)
    (collection : string) (w : World) :
  let request := mkRequest GET (url this +:+ "/" +:+ collection) None in
  requests (listObjects this collection w) = sent w ++ [request]
  ∧ (∀ e, remote (sent w) request = Rejected e →
          listObjects this collection w = Thrown e (logged request w)).
Proof.
  intros request. subst request. unfold listObjects, fetch. run. split.
  - destruct (remote _ _) as [r | e]; [| done].
    destruct (status r =? 404); [done |]. by destruct (ok r).
  - by intros e ->.
Qed.
End backend_properties.

Section retrieve_properties.
Context `{Platform}.
Variable Json : Type.
Variable response_json : string → Json + JsError.

(** X13: [retrieveObject] reads where [storeObject] wrote when it is given
    the primary key encoded twice, and also when it is given the primary key
    itself provided the key has unreserved characters only. *)
Theorem retrieveObject_reads_where_storeObject_wrote
    (this : SimpleHttpBackend) (backupObject : BackupObject) (w w' : World) :
  ∃ address,
    map req_url (requests (storeObject this backupObject w))
    = map req_url (sent w) ++ [address]
    ∧ map req_url
        (requests (retrieveObject Json response_json this
                     (bo_collection backupObject)
                     (encodeURIComponent
                        (encodeURIComponent (bo_pk backupObject))) w'))
      = map req_url (sent w') ++ [address]
    ∧ (unreserved (bo_pk backupObject) = true →
       map req_url
         (requests (retrieveObject Json response_json this
                      (bo_collection backupObject) (bo_pk backupObject) w'))
       = map req_url (sent w') ++ [address]).
Proof.
  assert (∀ key,
    map req_url
      (requests (retrieveObject Json response_json this
                   (bo_collection backupObject) key w'))
    = map req_url (sent w')
      ++ [url this +:+ "/" +:+ bo_collection backupObject +:+ "/" +:+ key])
    as Hread.
  { intros key. unfold retrieveObject, fetch. run.
    destruct (remote _ _) as [r | e]; simpl.
    - destruct (response_json (text r)); unfold requests; simpl;
        by rewrite map_app.
    - unfold requests. simpl. by rewrite map_app. }
  eexists. split; [| split].
  - unfold storeObject. rewrite writeToPath_requests, map_app. reflexivity.
  - apply Hread.
  - intros Hu. rewrite Hread.
    by rewrite !(encodeURIComponent_unreserved _ Hu).
Qed.

(** X14: [retrieveObject] makes one GET and does not look at the status of
    the response: the parsed body is returned for any status, a body that
    does not parse fails with the parser's error, and a rejected [fetch]
    fails with its error. *)
Theorem retrieveObject_ignores_status (this : SimpleHttpBackend)
    (collection object : string) (w : World) :
  let request :=
    mkRequest GET (url this +:+ "/" +:+ collection +:+ "/" +:+ object) None in
  requests (retrieveObject Json response_json this collection object w)
  = sent w ++ [request]
  ∧ (∀ r parsed, remote (sent w) request = Resolved r →
       response_json (text r) = inl parsed →
       retrieveObject Json response_json this collection object w
       = Returned parsed (logged request w))
  ∧ (∀ r e, remote (sent w) request = Resolved r →
       response_json (text r) = inr e →
       retrieveObject Json response_json this collection object w
       = Thrown e (logged request w))
  ∧ (∀ e, remote (sent w) request = Rejected e →
       retrieveObject Json response_json this collection object w
       = Thrown e (logged request w)).
Proof.
  intros request. subst request. unfold retrieveObject, fetch. run.
  split; [| split; [| split]].
  - destruct (remote _ _) as [r | e]; [| done].
    by destruct (response_json (text r)).
  - by intros r parsed -> ->.
  - by intros r e -> ->.
  - by intros e ->.
Qed.
End retrieve_properties.

(** ** Properties of the listing parser *)

(** X15: a listing can be parsed in parts: the keys of a body cut at a
    newline are the keys of the first part followed by those of the rest; so
    a newline at the end of the body adds no key. *)
Theorem parse_listing_in_parts (first rest : string) :
  parse_listing (first +:+ String newline rest)
  = parse_listing first ++ parse_listing rest
  ∧ parse_listing (first +:+ String newline "") = parse_listing first.
Proof.
  assert (∀ b, parse_listing (first +:+ String newline b)
               = parse_listing first ++ parse_listing b) as Hparts.
  { intros b. rewrite !parse_listing_omap, split_lines_newline.
    apply omap_app. }
  split; [apply Hparts |]. rewrite Hparts. apply app_nil_r.
Qed.

(** X16: every key returned is non-empty and holds neither a quote nor a
    newline, and a line gives at most one key: there are no more keys than
    lines. *)
Theorem parse_listing_keys_well_formed (body : string) :
  Forall (λ key, key ≠ EmptyString ∧ free_of dquote key = true
                 ∧ free_of newline key = true) (parse_listing body)
  ∧ (length (parse_listing body) ≤ length (split_lines body))%nat.
Proof.
  rewrite parse_listing_omap.
  destruct (join_split_lines body) as [_ Hfree].
  induction Hfree as [| line lines Hline _ [IH1 IH2]].
  - split; [constructor | done].
  - change (omap exec_href (line :: lines))
      with (match exec_href line with
            | Some key => key :: omap exec_href lines
            | None => omap exec_href lines
            end).
    destruct (exec_href line) as [key |] eqn:E;
      [| split; [done | simpl; lia]].
    split; [| simpl; lia]. constructor; [| done].
    destruct (exec_href_sound line key E) as (before & after & -> & Hne & Hq).
    repeat split; try done.
    rewrite !free_of_app in Hline.
    by repeat (apply andb_true_iff in Hline as [? Hline]).
Qed.

(** X17: of several links on one line the parser returns the leftmost: a
    line whose text before the first token holds no [h] gives the value of
    that token, whatever follows it. *)
Theorem parse_listing_leftmost_link (before v after : string) :
  free_of "h" before = true → v ≠ EmptyString → free_of dquote v = true →
  free_of newline (before +:+ href_open +:+ v +:+ String dquote after) = true →
  parse_listing (before +:+ href_open +:+ v +:+ String dquote after) = [v].
Proof.
  intros Hb Hv Hq Hline.
  rewrite parse_listing_omap, split_lines_line by done. simpl.
  by rewrite exec_href_leftmost.
Qed.

(** X18: a listing that has one link per key, written as the anchor
    [<a href=QUOTE key QUOTE>key</a>], parses back to the keys, in order and
    with repetitions, as long as no key is empty or holds a quote or a
    newline. *)
Theorem parse_listing_of_anchors (keys : list string) :
  Forall (λ key, key ≠ EmptyString ∧ free_of dquote key = true
                 ∧ free_of newline key = true) keys →
  parse_listing (join_lines (map listing_line keys)) = keys.
Proof.
  intros Hkeys. destruct keys as [| key0 keys0]; [done |].
  remember (key0 :: keys0) as keys eqn:Ekeys.
  assert (omap exec_href (map listing_line keys) = keys) as Homap.
  { clear Ekeys. induction Hkeys as [| key keys (Hne & Hq & _) _ IH]; [done |].
    change (omap exec_href (map listing_line (key :: keys)))
      with (match exec_href (listing_line key) with
            | Some k => k :: omap exec_href (map listing_line keys)
            | None => omap exec_href (map listing_line keys)
            end).
    by rewrite exec_href_listing_line, IH. }
  rewrite parse_listing_omap, split_lines_join; [exact Homap | by subst |].
  apply Forall_map. eapply Forall_impl; [exact Hkeys |].
  intros key (_ & _ & Hn). simpl. unfold listing_line.
  rewrite !free_of_app, Hn. reflexivity.
Qed.

(** ** Properties of [changeListsBeforeSending] *)

(** X19: each list comes back in its place, without its [_name_terms], with
    an empty [pages] array and an [active] flag that is true exactly when
    some entry has the list's id as [listId]; its other fields are kept.
    The lists handed in lose their [_name_terms] and nothing else. *)
Theorem lists_prepared_for_sending
    (lists : list CustomListStorage.PageList)
    (pageEntries : list CustomListStorage.PageListEntry)
    (i : nat) (list : CustomListStorage.PageList) :
  lists !! i = Some list →
  ∃ sent_list active,
    snd (CustomListStorage.changeListsBeforeSending lists pageEntries) !! i
    = Some sent_list
    ∧ length (snd (CustomListStorage.changeListsBeforeSending lists pageEntries))
      = length lists
    ∧ sent_list !! "_name_terms" = None
    ∧ sent_list !! "pages" = Some (CustomListStorage.UrlArray [])
    ∧ sent_list !! "active" = Some (CustomListStorage.Scalar (JBool active))
    ∧ (active = true ↔
       ∃ entry, entry ∈ pageEntries
                ∧ CustomListStorage.id_matches (field entry "listId")
                    (list !! "id") = true)
    ∧ (∀ f, f ≠ "_name_terms" → f ≠ "pages" → f ≠ "active" →
            sent_list !! f = list !! f)
    ∧ fst (CustomListStorage.changeListsBeforeSending lists pageEntries) !! i
      = Some (delete "_name_terms" list).
Proof.
  intros Hi. unfold CustomListStorage.changeListsBeforeSending. simpl.
  eexists _, _. split; [by rewrite list_lookup_fmap, Hi |].
  split; [apply length_map |].
  split; [by rewrite !lookup_insert_ne, lookup_delete_eq |].
  split; [by rewrite lookup_insert_ne, lookup_insert_eq |].
  split; [by rewrite lookup_insert_eq |].
  split; [| split].
  - rewrite bool_decide_eq_true. split.
    + intros [entry Hfind]. apply find_some in Hfind as [Hin Hm].
      exists entry. split; [by apply list_elem_of_In | done].
    + intros (entry & Hin & Hm).
      destruct (find _ pageEntries) as [found |] eqn:Hfind; [eauto |].
      apply list_elem_of_In in Hin.
      pose proof (find_none _ _ Hfind entry Hin) as Hno. simpl in Hno.
      congruence.
  - intros f Hf1 Hf2 Hf3.
    by rewrite !lookup_insert_ne, lookup_delete_ne.
  - by rewrite list_lookup_fmap, Hi.
Qed.

(** X20: preparing lists that were already prepared without entries, as
    [fetchListPagesByUrl] does with the result of [fetchAllLists], gives what
    preparing the lists themselves with the entries gives. *)
Theorem lists_prepared_twice
    (lists : list CustomListStorage.PageList)
    (pageEntries : list CustomListStorage.PageListEntry) :
  snd (CustomListStorage.changeListsBeforeSending
         (snd (CustomListStorage.changeListsBeforeSending lists []))
         pageEntries)
  = snd (CustomListStorage.changeListsBeforeSending lists pageEntries).
Proof.
  unfold CustomListStorage.changeListsBeforeSending. simpl.
  rewrite map_map. apply map_ext. intros list. simpl.
  rewrite !lookup_insert_ne, lookup_delete_ne by done.
  apply map_eq. intros f.
  destruct (decide (f = "active")) as [-> | Ha].
  { by rewrite !lookup_insert_eq. }
  rewrite !(lookup_insert_ne _ "active" f) by done.
  destruct (decide (f = "pages")) as [-> | Hp].
  { by rewrite !lookup_insert_eq. }
  rewrite !(lookup_insert_ne _ "pages" f) by done.
  destruct (decide (f = "_name_terms")) as [-> | Hn].
  { by rewrite !lookup_delete_eq. }
  rewrite !lookup_delete_ne by done.
  by rewrite !lookup_insert_ne, lookup_delete_ne.
Qed.

(** ** Properties of the tooltips reducer *)

(** X21: no action changes [whichTooltip]: after any run of actions it is
    what it was, so from the default state it stays empty; the payload of
    [setTooltip] goes to the field [tooltip]. *)
Theorem whichTooltip_never_changes (state : Tooltips.State)
    (actions : list Tooltips.Action) (payload : JsValue) :
  Tooltips.whichTooltip (Tooltips.dispatch_all state actions)
  = Tooltips.whichTooltip state
  ∧ Tooltips.whichTooltip (Tooltips.dispatch_all Tooltips.defState actions)
    = EmptyString
  ∧ Tooltips.tooltip
      (Tooltips.dispatch_all state (actions ++ [Tooltips.setTooltip payload]))
    = Some payload.
Proof.
  assert (∀ s, Tooltips.whichTooltip (Tooltips.dispatch_all s actions)
               = Tooltips.whichTooltip s) as Hkeep.
  { unfold Tooltips.dispatch_all.
    induction actions as [| a actions IH]; intros s; [done |].
    simpl. rewrite IH. by destruct a. }
  split; [apply Hkeep |]. split; [by rewrite Hkeep |].
  unfold Tooltips.dispatch_all. by rewrite fold_left_app.
Qed.

(** X22: [showTooltip] is decided by the last [setShowTooltip] and the
    toggles after it: it is the payload when their number is even and its
    negation when it is odd, whatever came before and whatever other actions
    come between. *)
Theorem showTooltip_after_last_set (state : Tooltips.State)
    (before after : list Tooltips.Action) (payload : bool) :
  Forall (λ a, ∀ b, a ≠ Tooltips.setShowTooltip b) after →
  Tooltips.showTooltip
    (Tooltips.dispatch_all state
       (before ++ Tooltips.setShowTooltip payload :: after))
  = xorb payload
      (Nat.odd (length (filter (λ a, a = Tooltips.toggleShowTooltip) after))).
Proof.
  intros Hafter.
  assert (∀ s, Tooltips.showTooltip (Tooltips.dispatch_all s after)
               = xorb (Tooltips.showTooltip s)
                   (Nat.odd (length (filter
                      (λ a, a = Tooltips.toggleShowTooltip) after)))) as Hrun.
  { unfold Tooltips.dispatch_all.
    induction Hafter as [| a after Ha _ IH]; intros s.
    - simpl. by destruct (Tooltips.showTooltip s).
    - simpl fold_left. rewrite IH, filter_cons.
      destruct a as [p | | b |]; simpl; try done.
      + rewrite Nat.odd_succ, <- Nat.negb_odd.
        by destruct (Tooltips.showTooltip s), (Nat.odd _).
      + by destruct (Ha b). }
  unfold Tooltips.dispatch_all in *. rewrite fold_left_app. simpl.
  by rewrite Hrun.
Qed.

(** ** The properties at sample inputs *)

Lemma other_collections_pass_through_sample :
  Forall (λ c, ¬ binary_collection c) [bookmark_change; visit_change]
  ∧ separateDataFromImageChanges (H := sample_platform server_created)
      [bookmark_change; visit_change] sample_world
    = Returned ([bookmark_change; visit_change], []) sample_world.
Proof.
  assert (Forall (λ c, ¬ binary_collection c) [bookmark_change; visit_change])
    as Hother by (repeat constructor; intros [E | E]; discriminate).
  split; [exact Hother |].
  exact (other_collections_pass_through (H := sample_platform server_created)
           [bookmark_change; visit_change] sample_world Hother).
Defined.

Lemma plain_page_has_nothing_to_encode :
  Forall (λ c, no_screenshot (heap plain_world) c
               ∧ no_favIcon (heap plain_world) c)
    [plain_page_change; deleted_page_change].
Proof.
  repeat constructor.
  - intros _ o [= <-]. eexists. split; vm_compute; reflexivity.
  - intros E. discriminate.
  - intros _ o [=].
  - intros E. discriminate.
Defined.

Lemma nothing_to_encode_nothing_done_sample :
  Forall (λ c, no_screenshot (heap plain_world) c
               ∧ no_favIcon (heap plain_world) c)
    [plain_page_change; deleted_page_change]
  ∧ separateDataFromImageChanges (H := sample_platform server_created)
      [plain_page_change; deleted_page_change] plain_world
    = Returned ([plain_page_change; deleted_page_change], []) plain_world.
Proof.
  split; [exact plain_page_has_nothing_to_encode |].
  exact (proj1 (nothing_to_encode_nothing_done
                  (H := sample_platform server_created)
                  [plain_page_change; deleted_page_change] plain_world
                  plain_page_has_nothing_to_encode)).
Defined.

Lemma images_come_from_pages_sample :
  Forall (allocated (heap sample_world))
    [page_change; favIcon_change; deleted_page_change; broken_page_change;
     page_change]
  ∧ ∃ images w',
      separateDataFromImageChanges (H := sample_platform server_created)
        [page_change; favIcon_change; deleted_page_change; broken_page_change;
         page_change] sample_world
      = Returned ([page_change; favIcon_change; deleted_page_change;
                   broken_page_change; page_change], images) w'
      ∧ Forall (λ i, img_type i = "screenshot" ∧ img_collection i = "pages")
               images.
Proof.
  split; [exact sample_changes_allocated |].
  destruct (images_come_from_pages (H := sample_platform server_created)
              _ sample_world sample_changes_allocated)
    as (images & w' & E & Hall & _).
  by exists images, w'.
Defined.

Lemma second_classification_extracts_nothing_sample :
  Forall (allocated (heap sample_world))
    [page_change; favIcon_change; deleted_page_change; broken_page_change;
     page_change]
  ∧ ∃ images w1 w2,
      separateDataFromImageChanges (H := sample_platform server_created)
        [page_change; favIcon_change; deleted_page_change; broken_page_change;
         page_change] sample_world
      = Returned ([page_change; favIcon_change; deleted_page_change;
                   broken_page_change; page_change], images) w1
      ∧ separateDataFromImageChanges (H := sample_platform server_created)
          [page_change; favIcon_change; deleted_page_change;
           broken_page_change; page_change] w1
        = Returned ([page_change; favIcon_change; deleted_page_change;
                     broken_page_change; page_change], []) w2.
Proof.
  split; [exact sample_changes_allocated |].
  destruct (second_classification_extracts_nothing
              (H := sample_platform server_created)
              _ sample_world sample_changes_allocated)
    as (images & w1 & E & _ & w2 & E2).
  by exists images, w1, w2.
Defined.

Lemma one_image_or_report_per_record_sample :
  Forall (allocated (heap sample_world))
    [page_change; favIcon_change; deleted_page_change; broken_page_change;
     page_change]
  ∧ ∃ images w',
      separateDataFromImageChanges (H := sample_platform server_created)
        [page_change; favIcon_change; deleted_page_change; broken_page_change;
         page_change] sample_world
      = Returned ([page_change; favIcon_change; deleted_page_change;
                   broken_page_change; page_change], images) w'
      ∧ (length images + length (captured w') ≤ 0 + 5)%nat.
Proof.
  split; [exact sample_changes_allocated |].
  exact (one_image_or_report_per_record (H := sample_platform server_created)
           _ sample_world sample_changes_allocated).
Defined.

Lemma favIcon_encoded_again_sample :
  (collection favIcon_change = "favIcons"
   ∧ object favIcon_change = Some 2%positive
   ∧ heap sample_world !! 2%positive = Some favIcon_payload
   ∧ not_nullish (field favIcon_payload "favIcon") = true
   ∧ wrapping_encode (field favIcon_payload "favIcon")
     = inl (JBlob "base64(AAABAAEAEBA=)")
   ∧ not_nullish (JBlob "base64(AAABAAEAEBA=)") = true
   ∧ wrapping_encode (JBlob "base64(AAABAAEAEBA=)")
     = inl (JBlob "base64(base64(AAABAAEAEBA=))"))
  ∧ ∃ w' p',
      separateDataFromImageChanges (H := wrapping_platform)
        [favIcon_change; favIcon_change] sample_world
      = Returned ([favIcon_change; favIcon_change], []) w'
      ∧ heap w' !! 2%positive = Some p'
      ∧ field p' "favIcon" = JBlob "base64(base64(AAABAAEAEBA=))".
Proof.
  assert (heap sample_world !! 2%positive = Some favIcon_payload) as Hp
    by (vm_compute; reflexivity).
  assert (not_nullish (field favIcon_payload "favIcon") = true) as Hs
    by (vm_compute; reflexivity).
  assert (wrapping_encode (field favIcon_payload "favIcon")
          = inl (JBlob "base64(AAABAAEAEBA=)")) as Honce
    by (vm_compute; reflexivity).
  split; [by repeat split |].
  exact (favIcon_encoded_again (H := wrapping_platform)
           favIcon_change 2%positive favIcon_payload sample_world
           (JBlob "base64(AAABAAEAEBA=)")
           (JBlob "base64(base64(AAABAAEAEBA=))")
           eq_refl eq_refl Hp Hs Honce eq_refl eq_refl).
Defined.

Lemma unreferenced_payloads_untouched_sample :
  Forall (allocated (heap sample_world)) [page_change; bookmark_change]
  ∧ ∃ images w',
      separateDataFromImageChanges (H := sample_platform server_created)
        [page_change; bookmark_change] sample_world
      = Returned ([page_change; bookmark_change], images) w'
      ∧ heap w' !! 2%positive = heap sample_world !! 2%positive.
Proof.
  assert (Forall (allocated (heap sample_world)) [page_change; bookmark_change])
    as Hall
    by (repeat constructor; unfold allocated; simpl; eexists;
        vm_compute; reflexivity).
  split; [exact Hall |].
  destruct (unreferenced_payloads_untouched
              (H := sample_platform server_created)
              [page_change; bookmark_change] sample_world Hall)
    as (images & w' & E & Hframe).
  exists images, w'. split; [exact E |]. apply Hframe.
  intros c Hin Hb Ho.
  apply elem_of_cons in Hin as [-> | Hin]; [discriminate |].
  apply list_elem_of_singleton in Hin as ->.
  destruct Hb as [E' | E']; discriminate.
Defined.

Lemma images_not_written_without_need_sample :
  (Forall (allocated (heap sample_world))
     [page_change; favIcon_change; deleted_page_change; broken_page_change;
      page_change]
   ∧ (false = false
      ∨ Forall (no_screenshot (heap sample_world))
          [page_change; favIcon_change; deleted_page_change;
           broken_page_change; page_change]))
  ∧ map req_url
      (requests (backupChanges (H := sample_platform server_created)
                   sample_backend
                   [page_change; favIcon_change; deleted_page_change;
                    broken_page_change; page_change] 7 false sample_world))
    = ["http://localhost:11923/change-sets/1541203200123"].
Proof.
  split; [split; [exact sample_changes_allocated | by left] |].
  destruct (images_not_written_without_need
              (H := sample_platform server_created) sample_backend
              _ 7 false sample_world sample_changes_allocated
              (or_introl eq_refl))
    as (images & w1 & _ & ->).
  reflexivity.
Defined.

Lemma change_sets_written_without_screenshots_sample :
  Forall (allocated (heap sample_world))
    [page_change; favIcon_change; deleted_page_change; broken_page_change;
     page_change]
  ∧ ∃ h1,
      Forall (no_screenshot h1)
        [page_change; favIcon_change; deleted_page_change;
         broken_page_change; page_change]
      ∧ ∃ later,
          requests (backupChanges (H := sample_platform server_created)
                      sample_backend
                      [page_change; favIcon_change; deleted_page_change;
                       broken_page_change; page_change] 7 true sample_world)
          = mkRequest PUT "http://localhost:11923/change-sets/1541203200123"
              (Some (sample_stringify_indent4
                       (ChangeSetDocument 7
                          [page_change; favIcon_change; deleted_page_change;
                           broken_page_change; page_change] h1)))
            :: later.
Proof.
  split; [exact sample_changes_allocated |].
  destruct (change_sets_written_without_screenshots
              (H := sample_platform server_created) sample_backend
              _ 7 true sample_world sample_changes_allocated)
    as (h1 & later & E & Hns).
  exists h1. split; [exact Hns |]. exists later. exact E.
Defined.

Lemma storeObject_url_tells_object_sample :
  (last (requests (storeObject (H := sample_platform server_created)
                     sample_backend sample_object sample_world))
   = Some (mkRequest PUT
             "http://localhost:11923/pages/example.com%252Fa%2520b"
             (Some (sample_stringify (JStr "page"))))
   ∧ last (requests (storeObject (H := sample_platform server_created)
                       sample_backend
                       (mkBackupObject "pages" "example.com/a b" (JNum 2))
                       plain_world))
     = Some (mkRequest PUT
               "http://localhost:11923/pages/example.com%252Fa%2520b"
               (Some (sample_stringify (JNum 2)))))
  ∧ bo_pk sample_object = "example.com/a b".
Proof.
  split; [split; vm_compute; reflexivity |].
  refine (proj2 (storeObject_url_tells_object
                   (H := sample_platform server_created) sample_backend
                   sample_object
                   (mkBackupObject "pages" "example.com/a b" (JNum 2))
                   sample_world plain_world
                   (mkRequest PUT
                      "http://localhost:11923/pages/example.com%252Fa%2520b"
                      (Some (sample_stringify (JStr "page"))))
                   (mkRequest PUT
                      "http://localhost:11923/pages/example.com%252Fa%2520b"
                      (Some (sample_stringify (JNum 2))))
                   _ _ eq_refl));
    vm_compute; reflexivity.
Defined.

Lemma listObjects_reads_once_sample :
  server_unreachable (sent sample_world)
    (mkRequest GET (url sample_backend +:+ "/" +:+ "change-sets") None)
  = Rejected (Error "Failed to fetch")
  ∧ listObjects (H := sample_platform server_unreachable)
      sample_backend "change-sets" sample_world
    = Thrown (Error "Failed to fetch")
        (logged (mkRequest GET (url sample_backend +:+ "/" +:+ "change-sets")
                   None) sample_world).
Proof.
  split; [reflexivity |].
  exact (proj2 (listObjects_reads_once (H := sample_platform server_unreachable)
                  sample_backend "change-sets" sample_world)
           (Error "Failed to fetch") eq_refl).
Defined.

Lemma retrieveObject_reads_where_storeObject_wrote_sample :
  unreserved (bo_pk plain_object) = true
  ∧ map req_url
      (requests (retrieveObject (H := sample_platform server_created)
                   string (λ body, inl body) sample_backend
                   "pages" "example.com" sample_world))
    = map req_url
        (requests (storeObject (H := sample_platform server_created)
                     sample_backend plain_object sample_world)).
Proof.
  split; [vm_compute; reflexivity |].
  destruct (retrieveObject_reads_where_storeObject_wrote
              (H := sample_platform server_created) string (λ body, inl body)
              sample_backend plain_object sample_world sample_world)
    as (address & Hstore & _ & Hread).
  rewrite Hstore. apply Hread. vm_compute. reflexivity.
Defined.

Lemma retrieveObject_ignores_status_sample :
  (server_missing (sent sample_world)
     (mkRequest GET
        (url sample_backend +:+ "/" +:+ "pages" +:+ "/" +:+ "example.com") None)
   = Resolved (mkResponse 404 "Not Found")
   ∧ (λ body : string, inl body : string + JsError) "Not Found"
     = inl "Not Found")
  ∧ returned_value
      (retrieveObject (H := sample_platform server_missing)
         string (λ body, inl body) sample_backend
         "pages" "example.com" sample_world)
    = Some "Not Found".
Proof.
  split; [split; reflexivity |].
  destruct (retrieveObject_ignores_status
              (H := sample_platform server_missing) string (λ body, inl body)
              sample_backend "pages" "example.com" sample_world)
    as (_ & Hparsed & _).
  rewrite (Hparsed (mkResponse 404 "Not Found") "Not Found" eq_refl eq_refl).
  reflexivity.
Defined.

Lemma parse_listing_leftmost_link_sample :
  (free_of "h" "<a " = true ∧ "1234" ≠ EmptyString
   ∧ free_of dquote "1234" = true
   ∧ free_of newline
       ("<a " +:+ href_open +:+ "1234"
          +:+ String dquote (">one</a> " +:+ listing_line "5678")) = true)
  ∧ parse_listing
      ("<a " +:+ href_open +:+ "1234"
         +:+ String dquote (">one</a> " +:+ listing_line "5678"))
    = ["1234"].
Proof.
  assert ("1234" ≠ EmptyString) as Hne by discriminate.
  split; [repeat split; try done; vm_compute; reflexivity |].
  apply parse_listing_leftmost_link; try done; vm_compute; reflexivity.
Defined.

Lemma parse_listing_of_anchors_sample :
  Forall (λ key, key ≠ EmptyString ∧ free_of dquote key = true
                 ∧ free_of newline key = true) ["1234"; "5678"; "1234"]
  ∧ parse_listing (join_lines (map listing_line ["1234"; "5678"; "1234"]))
    = ["1234"; "5678"; "1234"].
Proof.
  assert (Forall (λ key, key ≠ EmptyString ∧ free_of dquote key = true
                         ∧ free_of newline key = true)
            ["1234"; "5678"; "1234"]) as Hkeys
    by (repeat constructor; discriminate).
  split; [exact Hkeys |]. exact (parse_listing_of_anchors _ Hkeys).
Defined.

Lemma lists_prepared_for_sending_sample :
  [reading_list] !! 0%nat = Some reading_list
  ∧ ∃ sent_list,
      snd (CustomListStorage.changeListsBeforeSending
             [reading_list] [reading_entry]) !! 0%nat = Some sent_list
      ∧ sent_list !! "_name_terms" = None
      ∧ sent_list !! "pages" = Some (CustomListStorage.UrlArray []).
Proof.
  split; [reflexivity |].
  destruct (lists_prepared_for_sending [reading_list] [reading_entry]
              0%nat reading_list eq_refl)
    as (sent_list & active & E & _ & Hn & Hp & _).
  by exists sent_list.
Defined.

Lemma showTooltip_after_last_set_sample :
  Forall (λ a, ∀ b, a ≠ Tooltips.setShowTooltip b)
    [Tooltips.toggleShowTooltip; Tooltips.setTooltip (JStr "search-bar");
     Tooltips.toggleShowTooltip; Tooltips.toggleShowTooltip]
  ∧ Tooltips.showTooltip
      (Tooltips.dispatch_all Tooltips.defState
         ([Tooltips.toggleShowTooltip]
          ++ Tooltips.setShowTooltip false
          :: [Tooltips.toggleShowTooltip; Tooltips.setTooltip (JStr "search-bar");
              Tooltips.toggleShowTooltip; Tooltips.toggleShowTooltip]))
    = true.
Proof.
  assert (Forall (λ a, ∀ b, a ≠ Tooltips.setShowTooltip b)
            [Tooltips.toggleShowTooltip; Tooltips.setTooltip (JStr "search-bar");
             Tooltips.toggleShowTooltip; Tooltips.toggleShowTooltip]) as Hafter
    by (repeat constructor; intros b; discriminate).
  split; [exact Hafter |].
  rewrite (showTooltip_after_last_set Tooltips.defState
             [Tooltips.toggleShowTooltip] _ false Hafter).
  reflexivity.
Defined.
